(** * Deployment of models onto SageMaker: [deploy_model.py]

    A shallow embedding of [src/local_flow/rec/src/deploy_model.py]
    ([tf_model_to_tar], [deploy_tf_model], [deploy_model]) and the
    properties of its naming, validation, file handling and call order.

    Conventions of the embedding.
    - A Python [str] is a [string]; a non-ASCII character stands for its
      UTF-8 bytes.  A Python [int] is a [Z].  A Python [float] (a finite
      double) is a rational [Qc]; no float arithmetic is carried out by the
      code, floats are only passed around and compared with integers.
    - Every call that leaves the module (keras, tarfile, the file system,
      the Metaflow S3 client, the SageMaker SDK, gensim, the clock, the
      process environment, stdout) is an [Event] in the trace of the run
      and takes its answer from a [Platform], the record of everything the
      code does not decide itself.  An answer is a value or an exception.
      Left out are the calls that only build a value: [np.array],
      [CSVSerializer()], [JSONDeserializer()].
    - The state is the local file system, a map from paths to directories
      and files.  Only the file system calls of the module change it; the
      calls to the SDK are taken not to touch local files.
    - Python exceptions are the [Raise] results of the monad [M]; there is
      no handler anywhere in the module, so [mbind] is the only way two
      statements are composed. *)

From Stdlib Require Import Ascii String QArith Qcanon.
From stdpp Require Import numbers strings pretty gmap list.

Local Open Scope string_scope.
Local Open Scope list_scope.
Local Open Scope Z_scope.

(** ** Python built-ins used by the module *)

Module Py.

(** [str(n)] and ["{}".format(n)] for an [int]. *)
Definition str_int (n : Z) : string := pretty n.

(** [s.split(sep)] for a one character separator: the pieces between the
    occurrences of [sep]; never the empty list. *)
Fixpoint split (sep : ascii) (s : string) : list string :=
  match s with
  | "" => [""]
  | String c s' =>
      if decide (c = sep) then "" :: split sep s'
      else match split sep s' with
           | w :: ws => String c w :: ws
           | [] => [String c ""]
           end
  end.

(** [s.lstrip(c)], [s.rstrip(c)] and [s.strip(c)] for one character. *)
Fixpoint lstrip (ch : ascii) (s : string) : string :=
  match s with
  | String c s' => if decide (c = ch) then lstrip ch s' else s
  | "" => ""
  end.

Fixpoint rstrip (ch : ascii) (s : string) : string :=
  match s with
  | String c s' =>
      match rstrip ch s' with
      | "" => if decide (c = ch) then "" else String c ""
      | r => String c r
      end
  | "" => ""
  end.

Definition strip (ch : ascii) (s : string) : string := rstrip ch (lstrip ch s).

(** [l[:-1]]. *)
Definition drop_last {A} (l : list A) : list A := removelast l.

(** [a[::-1][1:]] on a one dimensional array. *)
Definition reversed_tail {A} (l : list A) : list A := tail (rev l).

(** [c in s]. *)
Fixpoint contains (c : ascii) (s : string) : bool :=
  match s with
  | "" => false
  | String d s' => if decide (d = c) then true else contains c s'
  end.

(** [s.startswith(c)] and [s.endswith(c)] for one character. *)
Definition startswith (c : ascii) (s : string) : bool :=
  match s with String d _ => bool_decide (d = c) | "" => false end.

Fixpoint endswith (c : ascii) (s : string) : bool :=
  match s with
  | "" => false
  | String d "" => bool_decide (d = c)
  | String _ s' => endswith c s'
  end.

(** [s.split(c, 1)] when [c in s]: the text before and after the first [c]. *)
Fixpoint partition (c : ascii) (s : string) : string * string :=
  match s with
  | "" => ("", "")
  | String d s' =>
      if decide (d = c) then ("", s')
      else let '(a, b) := partition c s' in (String d a, b)
  end.

(** [sep.join(l)]. *)
Fixpoint join (sep : string) (l : list string) : string :=
  match l with
  | [] => ""
  | [x] => x
  | x :: l' => x +:+ sep +:+ join sep l'
  end.

(** [posixpath.join(a, *p)]: a component that starts with a slash restarts
    the path, an empty path or one ending in a slash takes the component
    as it is, otherwise a slash is put in between. *)
Definition path_join_step (path b : string) : string :=
  if startswith "/" b then b
  else if bool_decide (path = "") || endswith "/" path then path +:+ b
  else path +:+ "/" +:+ b.

Definition path_join (a : string) (p : list string) : string :=
  foldl path_join_step a p.

End Py.

(** ** Results and exceptions *)

Inductive Exn :=
| AssertionError
| KeyError (key : string)
| IndexError
| ValueError
| FileNotFoundError (path : string)
| FileExistsError (path : string)
| IsADirectoryError (path : string)
| NotADirectoryError (path : string)
| LibraryError (what : string).   (* any other exception a library raises *)

Inductive Res (A : Type) :=
| Ok (a : A)
| Raise (e : Exn).
Arguments Ok {A} a.
Arguments Raise {A} e.

Global Instance Exn_eq_dec : EqDecision Exn.
Proof. solve_decision. Defined.

Global Instance Res_ret : MRet Res := @Ok.
Global Instance Res_bind : MBind Res := fun A B f r =>
  match r with Ok a => f a | Raise e => Raise e end.

(** ** [urllib.parse.urlparse]

    The algorithm of CPython 3.11/3.12 [urlsplit] and [urlparse], for
    [str] arguments and the default [scheme=''], [allow_fragments=True]. *)

Module Url.

Record ParseResult := {
  scheme : string;
  netloc : string;
  path : string;
  params : string;
  query : string;
  fragment : string;
}.

Definition code (c : ascii) : nat := nat_of_ascii c.

(** [_WHATWG_C0_CONTROL_OR_SPACE]: the characters up to the space. *)
Definition c0_control_or_space (c : ascii) : bool := bool_decide (code c ≤ 32)%nat.

Fixpoint lstrip_c0 (s : string) : string :=
  match s with
  | String c s' => if c0_control_or_space c then lstrip_c0 s' else s
  | "" => ""
  end.

(** [_UNSAFE_URL_BYTES_TO_REMOVE]: tab, carriage return, line feed. *)
Definition unsafe_byte (c : ascii) : bool :=
  bool_decide (code c = 9 ∨ code c = 13 ∨ code c = 10)%nat.

Fixpoint remove_unsafe (s : string) : string :=
  match s with
  | String c s' => if unsafe_byte c then remove_unsafe s' else String c (remove_unsafe s')
  | "" => ""
  end.

Definition is_upper (c : ascii) : bool := bool_decide (65 ≤ code c ≤ 90)%nat.
Definition is_lower (c : ascii) : bool := bool_decide (97 ≤ code c ≤ 122)%nat.
Definition is_digit (c : ascii) : bool := bool_decide (48 ≤ code c ≤ 57)%nat.
Definition is_ascii_alpha (c : ascii) : bool := is_upper c || is_lower c.

(** [scheme_chars]: letters, digits and ["+-."]. *)
Definition scheme_char (c : ascii) : bool :=
  is_ascii_alpha c || is_digit c
  || bool_decide (c = "+"%char ∨ c = "-"%char ∨ c = "."%char).

Definition lower_char (c : ascii) : ascii :=
  if is_upper c then ascii_of_nat (code c + 32) else c.

Fixpoint all_chars (p : ascii → bool) (s : string) : bool :=
  match s with
  | "" => true
  | String c s' => p c && all_chars p s'
  end.

Fixpoint map_chars (f : ascii → ascii) (s : string) : string :=
  match s with
  | "" => ""
  | String c s' => String (f c) (map_chars f s')
  end.

(** The scheme: [i = url.find(':')]; when [i > 0], the first character is
    an ASCII letter and [url[:i]] has scheme characters only, the scheme is
    [url[:i].lower()] and the url goes on after the colon. *)
Definition split_scheme (url : string) : string * string :=
  if Py.contains ":" url then
    let '(pre, rest) := Py.partition ":" url in
    match pre with
    | String c0 _ =>
        if is_ascii_alpha c0 && all_chars scheme_char pre
        then (map_chars lower_char pre, rest)
        else ("", url)
    | "" => ("", url)
    end
  else ("", url).

(** [_splitnetloc(url, 2)] on [url[2:]]: the network location runs to the
    first of ['/'], ['?'], ['#']. *)
Definition netloc_delim (c : ascii) : bool :=
  bool_decide (c = "/"%char ∨ c = "?"%char ∨ c = "#"%char).

Fixpoint split_netloc (s : string) : string * string :=
  match s with
  | "" => ("", "")
  | String c s' =>
      if netloc_delim c then ("", s)
      else let '(a, b) := split_netloc s' in (String c a, b)
  end.

Definition is_ascii (s : string) : bool :=
  all_chars (fun c => bool_decide (code c < 128)%nat) s.

(** The checks on the network location.  One bracket without the other is
    an ["Invalid IPv6 URL"].  A bracketed host ([_check_bracketed_netloc])
    and a host with non-ASCII characters ([_checknetloc], by NFKC
    normalisation) are examined by code of [ipaddress] and [unicodedata];
    [host_check] stands for their verdict.  Any other location passes. *)
Definition netloc_ok (host_check : string → bool) (loc : string) : bool :=
  let lb := Py.contains "[" loc in
  let rb := Py.contains "]" loc in
  if lb && negb rb || rb && negb lb then false
  else if lb && rb || negb (is_ascii loc) then host_check loc
  else true.

Definition urlsplit (host_check : string → bool) (url0 : string)
  : Res (string * string * string * string * string) :=
  let url := remove_unsafe (lstrip_c0 url0) in
  let '(scheme, url) := split_scheme url in
  let '(netloc, url) :=
    match url with
    | String "/" (String "/" rest) => split_netloc rest
    | _ => ("", url)
    end in
  let '(url, fragment) :=
    if Py.contains "#" url then Py.partition "#" url else (url, "") in
  let '(url, query) :=
    if Py.contains "?" url then Py.partition "?" url else (url, "") in
  if netloc_ok host_check netloc
  then Ok (scheme, netloc, url, query, fragment)
  else Raise ValueError.

Definition uses_params : list string :=
  [""; "ftp"; "hdl"; "prospero"; "http"; "imap"; "https"; "shttp"; "rtsp";
   "rtspu"; "sip"; "sips"; "mms"; "sftp"; "tel"].

(** [s] up to and including its last [c], and what follows; [("", s)]
    when [c] does not occur. *)
Fixpoint rsplit_after (c : ascii) (s : string) : string * string :=
  match s with
  | "" => ("", "")
  | String d s' =>
      if bool_decide (d = c) || Py.contains c s'
      then let '(a, b) := rsplit_after c s' in (String d a, b)
      else ("", s)
  end.

(** [_splitparams(url)], called when [';' in url]: the parameters start at
    the first [';'] of the last path segment. *)
Definition splitparams (url : string) : string * string :=
  if Py.contains "/" url then
    let '(dir, seg) := rsplit_after "/" url in
    if Py.contains ";" seg
    then let '(a, b) := Py.partition ";" seg in (dir +:+ a, b)
    else (url, "")
  else Py.partition ";" url.

Definition urlparse (host_check : string → bool) (url : string)
  : Res ParseResult :=
  '(scheme, netloc, url, query, fragment) ← urlsplit host_check url;
  let '(url, params) :=
    if bool_decide (scheme ∈ uses_params) && Py.contains ";" url
    then splitparams url else (url, "") in
  mret {| scheme := scheme; netloc := netloc; path := url;
          params := params; query := query; fragment := fragment |}.

End Url.

(** ** Data of the module *)

(** Weights of a keras model: a list of arrays, each given by its entries. *)
Abbreviation Weights := (list (list Qc)) (only parsing).

(** The [model] argument of [deploy_tf_model], a dict: the architecture as
    JSON under ['model'], the weights under ['weights'], and optionally
    ['custom_objects'].  [None] is an absent key. *)
Record ModelDict := {
  md_model : option string;
  md_custom_objects : option string;
  md_weights : option Weights;
}.

(** A keras model object. *)
Record TfModel := {
  tfm_config : string;
  tfm_custom_objects : option string;
  tfm_weights : option Weights;
}.

(** An entry of the local file system. *)
Inductive Node :=
| Dir
| File (data : string).

(** [sagemaker.tensorflow.TensorFlowModel]. *)
Record SmModel := {
  sm_model_data : string;
  sm_image_uri : option string;
  sm_role : option string;
}.

Inductive HpValue :=
| HInt (n : Z)
| HStr (s : string).

Record TrainingInput := {
  ti_s3_data : string;
  ti_content_type : string;
}.

(** [sagemaker.estimator.Estimator], with what [set_hyperparameters] and
    [fit] record in it. *)
Record Estimator := {
  est_image_uri : string;
  est_role : option string;
  est_instance_count : Z;
  est_instance_type : string;
  est_output_path : string;
  est_hyperparameters : list (string * HpValue);
  est_training : option (list (string * TrainingInput));
}.

(** A predictor is bound to the endpoint it was deployed to. *)
Record Predictor := { predictor_endpoint : string }.

(** Response of the tensorflow endpoint, as the JSON deserializer returns
    it: [{'predictions': [[...], ...]}].  The responses are given the shape
    the platform documents; a response without the key ['predictions'] or
    ['labels'] is not modelled. *)
Record TfResponse := { tf_predictions : list (list Qc) }.

(** Verbose response of the KNN endpoint:
    [{'predictions': [{'predicted_label': .., 'distances': [..], 'labels': [..]}, ..]}]. *)
Record KnnPrediction := {
  predicted_label : Qc;
  distances : list Qc;
  labels : list Qc;
}.
Record KnnResponse := { knn_predictions : list KnnPrediction }.

(** [gensim.models.KeyedVectors]: the [model] argument of [deploy_model]. *)
Record KeyedVectors := {
  index_to_key : list string;
  key_to_index : gmap string Z;
  get_vector : gmap string (list Qc);                        (* model[key] *)
  similar_by_key : string → Z → list (string * Qc);           (* (key, similarity) *)
}.

(** What [print] is given. *)
Inductive Printed :=
| PText (s : string)
| PPrediction (r : KnnPrediction)
| PFloats (label : string) (a : list Qc)
| PInts (label : string) (a : list Z).

(** ** External calls *)

Inductive Event :=
| EModelFromJson (config : string) (custom_objects : option string)
| ESetWeights (weights : Weights)
| ESave (filepath : string)
| ETarOpen (name : string)
| ETarAdd (name : string)
| ERmtree (path : string)
| EOpenRead (name : string)
| ES3Put (key data : string)
| ERemove (name : string)
| ETime
| EPrint (what : Printed)
| EGetenv (name : string)
| ETensorFlowModel (model_data : string) (image_uri role : option string)
| ETfDeploy (model : SmModel) (initial_instance_count : Z)
    (instance_type : option string) (endpoint_name : string)
| ETfPredict (endpoint : string) (instances : list (list Z))
| ESession
| EEstimator (image_uri : string) (role : option string) (instance_count : Z)
    (instance_type output_path : string)
| ESetHyperparameters (hyperparams : list (string * HpValue))
| ETrainingInput (s3_data content_type : string)
| EFit (estimator : Estimator) (inputs : list (string * TrainingInput))
| EKnnDeploy (estimator : Estimator) (initial_instance_count : Z)
    (instance_type : option string) (endpoint_name : string)
| ESimilarByKey (key : string) (topn : Z)
| EKnnPredict (endpoint : string) (data : list Qc)
    (initial_args : list (string * string)).

(** Everything outside the module.  [fails ev] is the exception raised
    inside the call [ev], if any; the other fields are the values the
    calls return when they do not raise.  The file system calls raise in
    addition when the path they are given is missing or of the wrong
    kind.  [now_ms] is what [int(round(time.time() * 1000))] evaluates to:
    the float product and its rounding happen inside this reading.
    [saved_files] are the entries keras writes below the path it is given,
    [targz] the bytes of the compressed archive of some entries, [s3_url]
    the url [s3.put] returns, [host_check] the verdict of [urlparse] on an
    unusual network location (see [Url.netloc_ok]). *)
Record Platform := {
  now_ms : Z;
  environ : gmap string string;
  fails : Event → option Exn;
  saved_files : TfModel → list (string * Node);
  targz : list (string * Node) → string;
  s3_url : string → string → string;
  tf_response : string → list (list Z) → TfResponse;
  knn_response : string → list Qc → list (string * string) → KnnResponse;
  host_check : string → bool;
}.

(** ** The monad of the module: file system state, exceptions, trace *)

Definition M (A : Type) : Type :=
  gmap string Node → Res A * gmap string Node * list Event.

Global Instance M_ret : MRet M := fun A a fs => (Ok a, fs, []).
Global Instance M_bind : MBind M := fun A B f m fs =>
  match m fs with
  | (Ok a, fs', t) => let '(r, fs'', t') := f a fs' in (r, fs'', t ++ t')
  | (Raise e, fs', t) => (Raise e, fs', t)
  end.

Definition raise {A} (e : Exn) : M A := fun fs => (Raise e, fs, []).
Definition lift {A} (r : Res A) : M A := fun fs => (r, fs, []).
Definition get_fs : M (gmap string Node) := fun fs => (Ok fs, fs, []).
Definition put_fs (fs : gmap string Node) : M unit := fun _ => (Ok tt, fs, []).

(** [assert c]. *)
Definition assert (c : bool) : M unit :=
  if c then mret tt else raise AssertionError.

(** [d[key]] on a dict, and [l[i]] on a list. *)
Definition dict_item {A} (key : string) (entry : option A) : Res A :=
  match entry with Some a => Ok a | None => Raise (KeyError key) end.

Definition getitem {A} (key : string) (entry : option A) : M A :=
  lift (dict_item key entry).

Definition list_item {A} (l : list A) (i : nat) : M A :=
  match l !! i with Some a => mret a | None => raise IndexError end.

(** Result, final file system and trace of a run. *)
Definition result {A} (m : M A) (fs : gmap string Node) : Res A := (m fs).1.1.
Definition final_fs {A} (m : M A) (fs : gmap string Node) : gmap string Node := (m fs).1.2.
Definition trace {A} (m : M A) (fs : gmap string Node) : list Event := (m fs).2.

(** ** The local file system *)

(** [p] is [d] or lies below it.  Paths are compared as written. *)
Definition is_under (d p : string) : bool :=
  bool_decide (p = d) || String.prefix (d +:+ "/") p.

(** The path and its ancestors, outermost first:
    ["a/b/c"] gives [["a"; "a/b"; "a/b/c"]]. *)
Fixpoint descend (acc : string) (comps : list string) : list string :=
  match comps with
  | [] => []
  | c :: cs => let acc' := acc +:+ "/" +:+ c in acc' :: descend acc' cs
  end.

Definition ancestors (p : string) : list string :=
  match Py.split "/" p with
  | c :: cs => c :: descend c cs
  | [] => []
  end.

(** [os.makedirs(.., exist_ok=True)] over the listed directories. *)
Fixpoint makedirs (dirs : list string) (fs : gmap string Node)
  : Res (gmap string Node) :=
  match dirs with
  | [] => Ok fs
  | d :: ds =>
      match fs !! d with
      | Some (File _) => Raise (FileExistsError d)
      | _ => makedirs ds (<[d := Dir]> fs)
      end
  end.

Definition write_under (root : string) (files : list (string * Node))
    (fs : gmap string Node) : gmap string Node :=
  foldr (fun f acc => <[root +:+ "/" +:+ f.1 := f.2]> acc) fs files.

Definition entries_under (d : string) (fs : gmap string Node)
  : gmap string Node :=
  filter (fun e => Is_true (is_under d e.1)) fs.

Definition remove_tree (d : string) (fs : gmap string Node)
  : gmap string Node :=
  filter (fun e => ¬ Is_true (is_under d e.1)) fs.

Definition newline : string := String (ascii_of_nat 10) "".

Section Deploy.

Variable P : Platform.

(** A call that leaves the module: it is logged, and it raises when the
    platform says so. *)
Definition call (ev : Event) : M unit := fun fs =>
  match fails P ev with
  | Some e => (Raise e, fs, [ev])
  | None => (Ok tt, fs, [ev])
  end.

Definition print (what : Printed) : M unit := call (EPrint what).

Definition getenv (name : string) : M (option string) :=
  _ ← call (EGetenv name); mret (environ P !! name).

(** [int(round(time.time() * 1000))]. *)
Definition time_ms : M Z :=
  _ ← call ETime; mret (now_ms P).

(** [tf_model.save(filepath=..)]: keras creates the directory and writes
    the saved model below it. *)
Definition keras_save (tf_model : TfModel) (filepath : string) : M unit :=
  _ ← call (ESave filepath);
  fs ← get_fs;
  fs ← lift (makedirs (ancestors filepath) fs);
  put_fs (write_under filepath (saved_files P tf_model) fs).

(** [tarfile.open(name, mode="w:gz")]: the archive file is created. *)
Definition tarfile_open (name : string) : M unit :=
  _ ← call (ETarOpen name);
  fs ← get_fs;
  match fs !! name with
  | Some Dir => raise (IsADirectoryError name)
  | _ => put_fs (<[name := File (targz P [])]> fs)
  end.

(** [_tar.add(name, recursive=True)] and the close of the archive at the
    end of the [with] block. *)
Definition tarfile_add (archive name : string) : M unit :=
  _ ← call (ETarAdd name);
  fs ← get_fs;
  match fs !! name with
  | None => raise (FileNotFoundError name)
  | Some _ =>
      put_fs (<[archive := File (targz P (map_to_list (entries_under name fs)))]> fs)
  end.

(** [shutil.rmtree(path)]. *)
Definition shutil_rmtree (path : string) : M unit :=
  _ ← call (ERmtree path);
  fs ← get_fs;
  match fs !! path with
  | None => raise (FileNotFoundError path)
  | Some (File _) => raise (NotADirectoryError path)
  | Some Dir => put_fs (remove_tree path fs)
  end.

(** [open(name, "rb")] and [in_file.read()]. *)
Definition open_read (name : string) : M string :=
  _ ← call (EOpenRead name);
  fs ← get_fs;
  match fs !! name with
  | None => raise (FileNotFoundError name)
  | Some Dir => raise (IsADirectoryError name)
  | Some (File data) => mret data
  end.

(** [os.remove(name)]. *)
Definition os_remove (name : string) : M unit :=
  _ ← call (ERemove name);
  fs ← get_fs;
  match fs !! name with
  | None => raise (FileNotFoundError name)
  | Some Dir => raise (IsADirectoryError name)
  | Some (File _) => put_fs (delete name fs)
  end.

(** [s3.put(key, data)] returns the url of the stored object. *)
Definition s3_put (key data : string) : M string :=
  _ ← call (ES3Put key data); mret (s3_url P key data).

(** ** [tf_model_to_tar] *)

Definition tf_model_to_tar (tf_model : TfModel) (run_id : Z) : M string :=
  let model_name := "intent-model-" +:+ Py.str_int run_id +:+ "/1" in
  let local_tar_name := "model-" +:+ Py.str_int run_id +:+ ".tar.gz" in
  (* save model locally *)
  _ ← keras_save tf_model model_name;
  (* save model as .tar.gz *)
  _ ← tarfile_open local_tar_name;
  _ ← tarfile_add local_tar_name model_name;
  (* remove local model *)
  _ ← shutil_rmtree (default "" (head (Py.split "/" model_name)));
  mret local_tar_name.

(** ** [deploy_tf_model] *)

Definition model_from_json (config : string) (custom_objects : option string)
  : M TfModel :=
  _ ← call (EModelFromJson config custom_objects);
  mret {| tfm_config := config; tfm_custom_objects := custom_objects;
          tfm_weights := None |}.

Definition set_weights (tf_model : TfModel) (weights : Weights) : M TfModel :=
  _ ← call (ESetWeights weights);
  mret {| tfm_config := tfm_config tf_model;
          tfm_custom_objects := tfm_custom_objects tf_model;
          tfm_weights := Some weights |}.

Definition TensorFlowModel (model_data : string) (image_uri role : option string)
  : M SmModel :=
  _ ← call (ETensorFlowModel model_data image_uri role);
  mret {| sm_model_data := model_data; sm_image_uri := image_uri;
          sm_role := role |}.

Definition tf_deploy (model : SmModel) (initial_instance_count : Z)
    (instance_type : option string) (endpoint_name : string) : M Predictor :=
  _ ← call (ETfDeploy model initial_instance_count instance_type endpoint_name);
  mret {| predictor_endpoint := endpoint_name |}.

Definition tf_predict (predictor : Predictor) (instances : list (list Z))
  : M TfResponse :=
  _ ← call (ETfPredict (predictor_endpoint predictor) instances);
  mret (tf_response P (predictor_endpoint predictor) instances).

(** Truth value of a list. *)
Definition truthy {A} (l : list A) : bool :=
  match l with [] => false | _ => true end.

Definition tf_endpoint_name (ms : Z) : string :=
  "intent-" +:+ Py.str_int ms +:+ "-endpoint".

Definition endpoint_banner (endpoint_name : string) : string :=
  newline +:+ newline +:+ "================" +:+ newline
  +:+ "Endpoint name is: " +:+ endpoint_name +:+ newline +:+ newline.

Definition deploy_tf_model (model : ModelDict) (run_id : Z)
  : M (string * string) :=
  (* load model from json and weights *)
  config ← getitem "model" (md_model model);
  tf_model ← model_from_json config (md_custom_objects model);
  weights ← getitem "weights" (md_weights model);
  tf_model ← set_weights tf_model weights;
  (* save model as .tar.gz onto S3 for SageMaker *)
  local_tar_name ← tf_model_to_tar tf_model run_id;
  (* save model to S3 *)
  data ← open_read local_tar_name;
  url ← s3_put local_tar_name data;
  _ ← print (PText ("Model saved at: " +:+ url));
  let model_s3_path := url in
  (* remove local compressed model *)
  _ ← os_remove local_tar_name;
  (* generate a signature for the endpoint using timestamp *)
  ms ← time_ms;
  let endpoint_name := tf_endpoint_name ms in
  _ ← print (PText (endpoint_banner endpoint_name));
  (* create sagemaker tf model *)
  image_uri ← getenv "DOCKER_IMAGE";
  role ← getenv "IAM_SAGEMAKER_ROLE";
  model ← TensorFlowModel model_s3_path image_uri role;
  (* deploy sagemaker model *)
  instance_type ← getenv "SAGEMAKER_INSTANCE";
  predictor ← tf_deploy model 1 instance_type endpoint_name;
  (* prepare a test input and check response *)
  let test_inp := [[1; 2; 3; 4; 5] ++ replicate 15 0] in
  result ← tf_predict predictor test_inp;
  _ ← assert (truthy (tf_predictions result));
  mret (model_s3_path, endpoint_name).


(** ** [deploy_model] *)

(** [np.array_equal(a1, a2)] for a one dimensional array of integers and
    one of floats: [False] when the shapes differ, otherwise
    [(a1 == a2).all()]. *)
Definition np_array_equal (a1 : list Z) (a2 : list Qc) : bool :=
  if decide (length a1 = length a2)
  then forallb (fun e => bool_decide (Qc_of_Z e.1 = e.2)) (zip a1 a2)
  else false.

Definition Session : M unit := call ESession.

Definition new_Estimator (image_uri : string) (role : option string)
    (instance_count : Z) (instance_type output_path : string) : M Estimator :=
  _ ← call (EEstimator image_uri role instance_count instance_type output_path);
  mret {| est_image_uri := image_uri; est_role := role;
          est_instance_count := instance_count;
          est_instance_type := instance_type;
          est_output_path := output_path;
          est_hyperparameters := []; est_training := None |}.

Definition set_hyperparameters (e : Estimator)
    (hyperparams : list (string * HpValue)) : M Estimator :=
  _ ← call (ESetHyperparameters hyperparams);
  mret {| est_image_uri := est_image_uri e; est_role := est_role e;
          est_instance_count := est_instance_count e;
          est_instance_type := est_instance_type e;
          est_output_path := est_output_path e;
          est_hyperparameters := hyperparams;
          est_training := est_training e |}.

Definition new_TrainingInput (s3_data content_type : string) : M TrainingInput :=
  _ ← call (ETrainingInput s3_data content_type);
  mret {| ti_s3_data := s3_data; ti_content_type := content_type |}.

Definition fit (e : Estimator) (inputs : list (string * TrainingInput))
  : M Estimator :=
  _ ← call (EFit e inputs);
  mret {| est_image_uri := est_image_uri e; est_role := est_role e;
          est_instance_count := est_instance_count e;
          est_instance_type := est_instance_type e;
          est_output_path := est_output_path e;
          est_hyperparameters := est_hyperparameters e;
          est_training := Some inputs |}.

Definition knn_deploy (e : Estimator) (initial_instance_count : Z)
    (instance_type : option string) (endpoint_name : string) : M Predictor :=
  _ ← call (EKnnDeploy e initial_instance_count instance_type endpoint_name);
  mret {| predictor_endpoint := endpoint_name |}.

Definition knn_predict (predictor : Predictor) (data : list Qc)
    (initial_args : list (string * string)) : M KnnResponse :=
  _ ← call (EKnnPredict (predictor_endpoint predictor) data initial_args);
  mret (knn_response P (predictor_endpoint predictor) data initial_args).

(** [model.similar_by_key(key, topn=..)]. *)
Definition gensim_similar_by_key (model : KeyedVectors) (key : string)
    (topn : Z) : M (list (string * Qc)) :=
  _ ← call (ESimilarByKey key topn);
  mret (similar_by_key model key topn).

(** [[model.key_to_index[_[0]] for _ in neighbours]]. *)
Fixpoint indices_of (model : KeyedVectors) (neighbours : list (string * Qc))
  : Res (list Z) :=
  match neighbours with
  | [] => mret []
  | n :: ns =>
      i ← dict_item n.1 (key_to_index model !! n.1);
      rest ← indices_of model ns;
      mret (i :: rest)
  end.

Definition knn_endpoint_name (ms : Z) : string :=
  "rec-knn-" +:+ Py.str_int ms +:+ "-endpoint".

(** Lines 121 to 124: the output path of the training job. *)
Definition TARGET_S3_OUTPUT_PATH (vectors_s3_path : string) : Res string :=
  parsed ← Url.urlparse (host_check P) vectors_s3_path;
  let bucket := Url.netloc parsed in
  let prefix := Py.drop_last (Py.split "/" (Py.strip "/" (Url.path parsed))) in
  mret ("s3://" +:+ Py.path_join bucket prefix).

Definition deploy_model (vectors_s3_path : string) (model : KeyedVectors)
    (k feature_dim sample_size : Z) : M string :=
  (* generate a signature for the endpoint using timestamp *)
  ms ← time_ms;
  let endpoint_name := knn_endpoint_name ms in
  _ ← print (PText (endpoint_banner endpoint_name));
  output_path ← lift (TARGET_S3_OUTPUT_PATH vectors_s3_path);
  (* knn hyper params *)
  let hyperparams :=
    [("k", HInt k); ("index_metric", HStr "COSINE");
     ("feature_dim", HInt feature_dim); ("sample_size", HInt sample_size);
     ("predictor_type", HStr "classifier")] in
  (* set up the estimator *)
  role ← getenv "IAM_SAGEMAKER_ROLE";
  _ ← Session;
  knn_model ← new_Estimator "174872318107.dkr.ecr.us-west-2.amazonaws.com/knn:1"
                role 1 "ml.m5.large" output_path;
  (* set hyper params *)
  knn_model ← set_hyperparameters knn_model hyperparams;
  (* setup fit input data *)
  train ← new_TrainingInput vectors_s3_path "text/csv; label_size=1";
  let fit_input := [("train", train)] in
  (* fit model *)
  knn_model ← fit knn_model fit_input;
  instance_type ← getenv "SAGEMAKER_INSTANCE";
  predictor ← knn_deploy knn_model 1 instance_type endpoint_name;
  (* test knn model *)
  test_key ← list_item (index_to_key model) 0;
  test_vector ← getitem test_key (get_vector model !! test_key);
  neighbours ← gensim_similar_by_key model test_key (k - 1);
  gensim_preds ← lift (indices_of model neighbours);
  response ← knn_predict predictor test_vector
               [("ContentType", "text/csv");
                ("Accept", "application/json; verbose=true")];
  result ← list_item (knn_predictions response) 0;
  _ ← print (PPrediction result);
  let result := Py.reversed_tail (labels result) in
  _ ← print (PFloats "SM KNN : " result);
  _ ← print (PInts "GS KNN : " gensim_preds);
  (* verify gensim and sm-knn are same on _some_ test input *)
  _ ← assert (np_array_equal gensim_preds result);
  mret endpoint_name.

End Deploy.

(** The defaults of [deploy_model]: [k=10, feature_dim=48, sample_size=65536]. *)
Definition deploy_model_defaults (P : Platform) (vectors_s3_path : string)
    (model : KeyedVectors) : M string :=
  deploy_model P vectors_s3_path model 10 48 65536.


(** * Vocabulary of the properties *)

(** ** Calls and their order *)

(** The name of the Python call behind an event. *)
Definition op_name (ev : Event) : string :=
  match ev with
  | EModelFromJson _ _ => "model_from_json"
  | ESetWeights _ => "set_weights"
  | ESave _ => "save"
  | ETarOpen _ => "tarfile.open"
  | ETarAdd _ => "tar.add"
  | ERmtree _ => "shutil.rmtree"
  | EOpenRead _ => "open"
  | ES3Put _ _ => "s3.put"
  | ERemove _ => "os.remove"
  | ETime => "time.time"
  | EPrint _ => "print"
  | EGetenv _ => "os.getenv"
  | ETensorFlowModel _ _ _ => "TensorFlowModel"
  | ETfDeploy _ _ _ _ => "model.deploy"
  | ETfPredict _ _ => "predictor.predict"
  | ESession => "sagemaker.Session"
  | EEstimator _ _ _ _ _ => "Estimator"
  | ESetHyperparameters _ => "set_hyperparameters"
  | ETrainingInput _ _ => "TrainingInput"
  | EFit _ _ => "fit"
  | EKnnDeploy _ _ _ _ => "knn_model.deploy"
  | ESimilarByKey _ _ => "similar_by_key"
  | EKnnPredict _ _ _ => "predictor.predict"
  end.

(** None of the calls [t] raises on the platform. *)
Definition quiet (P : Platform) (t : list Event) : Prop :=
  Forall (fun ev => fails P ev = None) t.

(** [straight P ops m]: every run of [m] performs the calls named [ops], in
    that order and once each, up to the first exception.  A run that
    returns has made them all and none of them raised; in a run that
    raises [e], a call that raised is the last one made and [e] is what it
    raised. *)
Definition straight {A} (P : Platform) (ops : list string) (m : M A) : Prop :=
  ∀ fs,
    match m fs with
    | (Ok _, _, t) => op_name <$> t = ops ∧ quiet P t
    | (Raise e, _, t) =>
        (op_name <$> t) `prefix_of` ops
        ∧ ∀ i ev e', t !! i = Some ev → fails P ev = Some e' →
            e' = e ∧ length t = S i
    end.

(** The calls of the three functions, in the order of the source text. *)
Definition tf_model_to_tar_ops : list string :=
  ["save"; "tarfile.open"; "tar.add"; "shutil.rmtree"].

Definition deploy_tf_model_ops : list string :=
  ["model_from_json"; "set_weights"] ++ tf_model_to_tar_ops ++
  ["open"; "s3.put"; "print"; "os.remove"; "time.time"; "print";
   "os.getenv"; "os.getenv"; "TensorFlowModel"; "os.getenv";
   "model.deploy"; "predictor.predict"].

Definition deploy_model_ops : list string :=
  ["time.time"; "print"; "os.getenv"; "sagemaker.Session"; "Estimator";
   "set_hyperparameters"; "TrainingInput"; "fit"; "os.getenv";
   "knn_model.deploy"; "similar_by_key"; "predictor.predict";
   "print"; "print"; "print"].



(** The calls to the SDK that could be tried again. *)
Definition tf_sdk_ops : list string := ["s3.put"; "model.deploy"; "predictor.predict"].
Definition knn_sdk_ops : list string := ["fit"; "knn_model.deploy"; "predictor.predict"].

(** The calls of [t] among [ops], by name. *)
Definition calls_among (ops : list string) (t : list Event) : list string :=
  filter (fun o => o ∈ ops) (op_name <$> t).


(** [uncaught P sdk m]: an exception raised inside a call of [m] is the
    result of the run, the call is the last one of the run, and none of the
    calls [sdk] is made twice. *)
Definition uncaught {A} (P : Platform) (sdk : list string) (m : M A) : Prop :=
  ∀ fs,
    (∀ i ev e, trace m fs !! i = Some ev → fails P ev = Some e →
       result m fs = Raise e ∧ length (trace m fs) = S i)
    ∧ NoDup (calls_among sdk (trace m fs)).

(** ** Names and files of a run *)

Definition model_dir (run_id : Z) : string := "intent-model-" +:+ Py.str_int run_id.
Definition model_name (run_id : Z) : string := "intent-model-" +:+ Py.str_int run_id +:+ "/1".
Definition archive_name (run_id : Z) : string := "model-" +:+ Py.str_int run_id +:+ ".tar.gz".

Definition is_file (entry : option Node) : bool :=
  match entry with Some (File _) => true | _ => false end.

(** The file system once keras has saved the model of run [run_id]. *)
Definition saved_state (files : list (string * Node)) (run_id : Z)
    (fs : gmap string Node) : gmap string Node :=
  write_under (model_name run_id) files
    (<[model_name run_id := Dir]> (<[model_dir run_id := Dir]> fs)).

(** The content of the archive that [tf_model_to_tar] writes. *)
Definition archive_bytes (P : Platform) (m : TfModel) (run_id : Z)
    (fs : gmap string Node) : string :=
  targz P (map_to_list
    (entries_under (model_name run_id)
       (<[archive_name run_id := File (targz P [])]>
          (saved_state (saved_files P m) run_id fs)))).

(** The keras model that [deploy_tf_model] builds. *)
Definition loaded_model (model : ModelDict) (config : string) (weights : Weights)
  : TfModel :=
  {| tfm_config := config; tfm_custom_objects := md_custom_objects model;
     tfm_weights := Some weights |}.

(** The local paths are free for the model of run [run_id]. *)
Definition paths_free (run_id : Z) (fs : gmap string Node) : Prop :=
  is_file (fs !! model_dir run_id) = false
  ∧ is_file (fs !! model_name run_id) = false
  ∧ fs !! archive_name run_id ≠ Some Dir.

(** The test input: [np.array([[1,2,3,4,5]+[0]*15])]. *)
Definition tf_test_input : list (list Z) := [[1; 2; 3; 4; 5] ++ replicate 15 0].

Definition tf_model_to_tar_trace (run_id : Z) : list Event :=
  [ESave (model_name run_id); ETarOpen (archive_name run_id);
   ETarAdd (model_name run_id); ERmtree (model_dir run_id)].

(** The calls of a run of [deploy_tf_model] that reaches the assertion,
    with their arguments; [arch] is the content of the archive. *)
Definition deploy_tf_model_trace (P : Platform) (model : ModelDict)
    (config : string) (weights : Weights) (arch : string) (run_id : Z)
  : list Event :=
  let url := s3_url P (archive_name run_id) arch in
  let endpoint_name := tf_endpoint_name (now_ms P) in
  let image_uri := environ P !! "DOCKER_IMAGE" in
  let role := environ P !! "IAM_SAGEMAKER_ROLE" in
  [ EModelFromJson config (md_custom_objects model);
    ESetWeights weights;
    ESave (model_name run_id);
    ETarOpen (archive_name run_id);
    ETarAdd (model_name run_id);
    ERmtree (model_dir run_id);
    EOpenRead (archive_name run_id);
    ES3Put (archive_name run_id) arch;
    EPrint (PText ("Model saved at: " +:+ url));
    ERemove (archive_name run_id);
    ETime;
    EPrint (PText (endpoint_banner endpoint_name));
    EGetenv "DOCKER_IMAGE";
    EGetenv "IAM_SAGEMAKER_ROLE";
    ETensorFlowModel url image_uri role;
    EGetenv "SAGEMAKER_INSTANCE";
    ETfDeploy {| sm_model_data := url; sm_image_uri := image_uri; sm_role := role |}
      1 (environ P !! "SAGEMAKER_INSTANCE") endpoint_name;
    ETfPredict endpoint_name tf_test_input ].

Definition knn_image : string := "174872318107.dkr.ecr.us-west-2.amazonaws.com/knn:1".

Definition knn_predict_args : list (string * string) :=
  [("ContentType", "text/csv"); ("Accept", "application/json; verbose=true")].

Definition knn_hyperparams (k feature_dim sample_size : Z)
  : list (string * HpValue) :=
  [("k", HInt k); ("index_metric", HStr "COSINE");
   ("feature_dim", HInt feature_dim); ("sample_size", HInt sample_size);
   ("predictor_type", HStr "classifier")].

(** The calls of a run of [deploy_model] that reaches the assertion. *)
Definition deploy_model_trace (P : Platform) (vectors_s3_path : string)
    (k feature_dim sample_size : Z) (output_path test_key : string)
    (test_vector : list Qc) (preds : list Z) (pred : KnnPrediction)
  : list Event :=
  let endpoint_name := knn_endpoint_name (now_ms P) in
  let role := environ P !! "IAM_SAGEMAKER_ROLE" in
  let hyperparams := knn_hyperparams k feature_dim sample_size in
  let train := {| ti_s3_data := vectors_s3_path;
                  ti_content_type := "text/csv; label_size=1" |} in
  let estimator training :=
    {| est_image_uri := knn_image; est_role := role; est_instance_count := 1;
       est_instance_type := "ml.m5.large"; est_output_path := output_path;
       est_hyperparameters := hyperparams; est_training := training |} in
  [ ETime;
    EPrint (PText (endpoint_banner endpoint_name));
    EGetenv "IAM_SAGEMAKER_ROLE";
    ESession;
    EEstimator knn_image role 1 "ml.m5.large" output_path;
    ESetHyperparameters hyperparams;
    ETrainingInput vectors_s3_path "text/csv; label_size=1";
    EFit (estimator None) [("train", train)];
    EGetenv "SAGEMAKER_INSTANCE";
    EKnnDeploy (estimator (Some [("train", train)])) 1
      (environ P !! "SAGEMAKER_INSTANCE") endpoint_name;
    ESimilarByKey test_key (k - 1);
    EKnnPredict endpoint_name test_vector knn_predict_args;
    EPrint (PPrediction pred);
    EPrint (PFloats "SM KNN : " (Py.reversed_tail (labels pred)));
    EPrint (PInts "GS KNN : " preds) ].

(** ** S3 urls *)

(** A path component: not empty, and free of the slash, of the characters
    that end the path of a url, and of the characters [urlsplit] removes. *)
Definition component_char (c : ascii) : bool :=
  negb (Url.netloc_delim c) && negb (Url.unsafe_byte c).

Definition component (s : string) : bool :=
  negb (bool_decide (s = "")) && Url.all_chars component_char s.

(** Characters that [urlsplit] leaves in the path. *)
Definition path_char (c : ascii) : bool :=
  negb (bool_decide (c = "?"%char ∨ c = "#"%char)) && negb (Url.unsafe_byte c).

(** A bucket name: a component of ASCII characters without brackets. *)
Definition bucket_char (c : ascii) : bool :=
  component_char c && bool_decide (Url.code c < 128)%nat
  && negb (bool_decide (c = "["%char ∨ c = "]"%char)).

Definition bucket_name (s : string) : bool :=
  negb (bool_decide (s = "")) && Url.all_chars bucket_char s.

(** ['s3://<bucket>/<c1>/.../<cn>']. *)
Definition s3_path (bucket : string) (comps : list string) : string :=
  "s3://" +:+ bucket +:+ "/" +:+ Py.join "/" comps.

(** Decimal digits and the sign, the characters of [str(n)]. *)
Definition decimal_char (c : ascii) : bool :=
  Url.is_digit c || bool_decide (c = "-"%char).

(** ** Footprint on the local file system *)

(** [touches_only allowed m]: whatever the outcome of a run of [m], every
    path outside [allowed] is after the run as it was before. *)
Definition touches_only {A} (allowed : string → bool) (m : M A) : Prop :=
  ∀ fs p, allowed p = false → final_fs m fs !! p = fs !! p.

(** The archive of run [run_id], its model directory and what lies below. *)
Definition run_paths (run_id : Z) (p : string) : bool :=
  bool_decide (p = archive_name run_id) || is_under (model_dir run_id) p.

Definition no_path (p : string) : bool := false.

(** ** Runs that stop early *)

(** The calls of [deploy_tf_model] before the upload. *)
Definition staging_trace (model : ModelDict) (config : string)
    (weights : Weights) (run_id : Z) : list Event :=
  [ EModelFromJson config (md_custom_objects model);
    ESetWeights weights;
    ESave (model_name run_id);
    ETarOpen (archive_name run_id);
    ETarAdd (model_name run_id);
    ERmtree (model_dir run_id);
    EOpenRead (archive_name run_id) ].

(** The calls of [deploy_model] up to the deployment of the endpoint. *)
Definition knn_setup_trace (P : Platform) (vectors_s3_path : string)
    (k feature_dim sample_size : Z) (output_path : string) : list Event :=
  let endpoint_name := knn_endpoint_name (now_ms P) in
  let role := environ P !! "IAM_SAGEMAKER_ROLE" in
  let hyperparams := knn_hyperparams k feature_dim sample_size in
  let train := {| ti_s3_data := vectors_s3_path;
                  ti_content_type := "text/csv; label_size=1" |} in
  let estimator training :=
    {| est_image_uri := knn_image; est_role := role; est_instance_count := 1;
       est_instance_type := "ml.m5.large"; est_output_path := output_path;
       est_hyperparameters := hyperparams; est_training := training |} in
  [ ETime;
    EPrint (PText (endpoint_banner endpoint_name));
    EGetenv "IAM_SAGEMAKER_ROLE";
    ESession;
    EEstimator knn_image role 1 "ml.m5.large" output_path;
    ESetHyperparameters hyperparams;
    ETrainingInput vectors_s3_path "text/csv; label_size=1";
    EFit (estimator None) [("train", train)];
    EGetenv "SAGEMAKER_INSTANCE";
    EKnnDeploy (estimator (Some [("train", train)])) 1
      (environ P !! "SAGEMAKER_INSTANCE") endpoint_name ].

(** The two calls that follow: the local neighbours and the test inference. *)
Definition knn_query_trace (P : Platform) (k : Z) (test_key : string)
    (test_vector : list Qc) : list Event :=
  [ ESimilarByKey test_key (k - 1);
    EKnnPredict (knn_endpoint_name (now_ms P)) test_vector knn_predict_args ].

(** ** Paths without scheme, and the characters of an endpoint name *)

(** A component of a plain path: a component without colon or semicolon
    that no leading character of which [urlsplit] strips. *)
Definition plain_char (c : ascii) : bool :=
  component_char c && negb (bool_decide (c = ":"%char ∨ c = ";"%char))
  && negb (Url.c0_control_or_space c).

Definition plain_component (s : string) : bool :=
  negb (bool_decide (s = "")) && Url.all_chars plain_char s.

(** Lower case letters, digits and the hyphen. *)
Definition endpoint_char (c : ascii) : bool :=
  Url.is_lower c || Url.is_digit c || bool_decide (c = "-"%char).

(** ** Sample inputs *)

Module Sample.

Definition q (n : Z) : Qc := Qc_of_Z n.

(** A platform on which no call raises: the clock reads [ms], the
    tensorflow endpoint answers [tf_preds] and the KNN endpoint the labels
    [knn_labels]. *)
Definition platform (ms : Z) (tf_preds : list (list Qc)) (knn_labels : list Qc)
  : Platform :=
  {| now_ms := ms;
     environ := {[ "IAM_SAGEMAKER_ROLE" := "sagemaker-role";
                   "SAGEMAKER_INSTANCE" := "ml.t2.medium" ]};
     fails := fun _ => None;
     saved_files := fun _ => [("saved_model.pb", File "graph"); ("variables", Dir)];
     targz := fun _ => "archive";
     s3_url := fun key _ => "s3://models/" +:+ key;
     tf_response := fun _ _ => {| tf_predictions := tf_preds |};
     knn_response := fun _ _ _ =>
       {| knn_predictions :=
            [{| predicted_label := q 0; distances := []; labels := knn_labels |}] |};
     host_check := fun _ => true |}.

(** A platform on which the deployment of an endpoint raises. *)
Definition failing_platform : Platform :=
  {| now_ms := 1000;
     environ := ∅;
     fails := fun ev =>
       match ev with
       | ETfDeploy _ _ _ _ | EKnnDeploy _ _ _ _ =>
           Some (LibraryError "ResourceLimitExceeded")
       | _ => None
       end;
     saved_files := fun _ => [];
     targz := fun _ => "archive";
     s3_url := fun key _ => "s3://models/" +:+ key;
     tf_response := fun _ _ => {| tf_predictions := [[q 1]] |};
     knn_response := fun _ _ _ => {| knn_predictions := [] |};
     host_check := fun _ => true |}.

Definition model_dict : ModelDict :=
  {| md_model := Some "{}"; md_custom_objects := None; md_weights := Some [[q 1; q 2]] |}.

(** Three keys; the neighbours of a key are the two other keys, cut to
    [topn], and nothing when [topn < 1]. *)
Definition vectors : KeyedVectors :=
  {| index_to_key := ["shoe"; "boot"; "sock"];
     key_to_index := {[ "shoe" := 0; "boot" := 1; "sock" := 2 ]};
     get_vector := {[ "shoe" := [q 1; q 0]; "boot" := [q 1; q 1]; "sock" := [q 0; q 1] ]};
     similar_by_key := fun _ topn =>
       take (Z.to_nat topn) [("boot", q 1); ("sock", q 0)] |}.

(** A tensorflow endpoint that predicts, and a KNN endpoint whose labels
    are the three keys, farthest first. *)
Definition tf_platform : Platform := platform 1000 [[q 1]] [].
Definition other_tf_platform : Platform := platform 1000 [[q 0]] [].
Definition knn_platform : Platform := platform 1000 [] [q 2; q 1; q 0].

Definition knn_prediction : KnnPrediction :=
  {| predicted_label := q 0; distances := []; labels := [q 2; q 1; q 0] |}.

(** A KNN endpoint that answers no label. *)
Definition mute_platform : Platform := platform 1000 [] [].

Definition vectors_url : string := "s3://bucket/data/vectors.csv".

(** A file system with leftovers of an earlier run. *)
Definition used_fs : gmap string Node :=
  {[ "notes.txt" := File "keep"; "intent-model-7" := Dir;
     "intent-model-7/old" := File "stale" ]}.

End Sample.

(** ** Platforms and inputs on which a run stops early *)

Module Cases.

(** The platform [P], on which the calls named [op] raise [e]. *)
Definition refusing (P : Platform) (op : string) (e : Exn) : Platform :=
  {| now_ms := now_ms P; environ := environ P;
     fails := fun ev => if bool_decide (op_name ev = op) then Some e else fails P ev;
     saved_files := saved_files P; targz := targz P; s3_url := s3_url P;
     tf_response := tf_response P; knn_response := knn_response P;
     host_check := host_check P |}.

Definition no_upload : Platform :=
  refusing Sample.tf_platform "s3.put" (LibraryError "AccessDenied").


(** A KNN endpoint whose answer holds no prediction. *)
Definition no_prediction : Platform :=
  {| now_ms := 1000; environ := ∅; fails := fun _ => None;
     saved_files := fun _ => []; targz := fun _ => "archive";
     s3_url := fun key _ => "s3://models/" +:+ key;
     tf_response := fun _ _ => {| tf_predictions := [] |};
     knn_response := fun _ _ _ => {| knn_predictions := [] |};
     host_check := fun _ => true |}.

(** Vectors without a key. *)
Definition empty_vectors : KeyedVectors :=
  {| index_to_key := []; key_to_index := ∅; get_vector := ∅;
     similar_by_key := fun _ _ => [] |}.

(** A dict without ['model'], and one without ['weights']. *)
Definition no_model : ModelDict :=
  {| md_model := None; md_custom_objects := None; md_weights := Some [] |}.
Definition no_weights : ModelDict :=
  {| md_model := Some "{}"; md_custom_objects := None; md_weights := None |}.

(** A url whose host opens a bracket that it does not close. *)
Definition bracket_url : string := "s3://[bucket/data/vectors.csv".

End Cases.


(** * Properties *)

(** ** [urlparse] on two urls *)

Example urlparse_s3 :
  Url.urlparse (fun _ => true) "s3://my-bucket/data/run/7/vectors.csv"
  = Ok {| Url.scheme := "s3"; Url.netloc := "my-bucket";
          Url.path := "/data/run/7/vectors.csv"; Url.params := "";
          Url.query := ""; Url.fragment := "" |}.
Proof. reflexivity. Qed.

Example urlparse_http :
  Url.urlparse (fun _ => true) "HTTP://h:80/a/b;p?q=1#f"
  = Ok {| Url.scheme := "http"; Url.netloc := "h:80"; Url.path := "/a/b";
          Url.params := "p"; Url.query := "q=1"; Url.fragment := "f" |}.
Proof. reflexivity. Qed.

(** ** Strings *)

Section Strings.

Implicit Types (a b s : string) (c : ascii).

Lemma str_app_nil_l s : "" +:+ s = s.
Proof. reflexivity. Qed.

Lemma str_app_cons c a b : String c a +:+ b = String c (a +:+ b).
Proof. reflexivity. Qed.

Lemma str_app_nil_r s : s +:+ "" = s.
Proof. induction s as [|c s IH]; [done|]. by rewrite str_app_cons, IH. Qed.

Lemma str_app_assoc a b s : (a +:+ b) +:+ s = a +:+ (b +:+ s).
Proof. induction a as [|c a IH]; [done|]. by rewrite !str_app_cons, IH. Qed.

Lemma str_app_length a b :
  String.length (a +:+ b) = (String.length a + String.length b)%nat.
Proof. induction a as [|c a IH]; [done|]. rewrite str_app_cons. simpl. by rewrite IH. Qed.

Lemma str_app_inj_r a b s : a +:+ s = b +:+ s → a = b.
Proof.
  revert b. induction a as [|c a IH]; intros [|d b] H.
  - done.
  - apply (f_equal String.length) in H. rewrite !str_app_length in H. simpl in H. lia.
  - apply (f_equal String.length) in H. rewrite !str_app_length in H. simpl in H. lia.
  - rewrite !str_app_cons in H. injection H as -> H. f_equal. by apply IH.
Qed.

Lemma contains_app c a b :
  Py.contains c (a +:+ b) = Py.contains c a || Py.contains c b.
Proof.
  induction a as [|d a IH]; [done|]. rewrite str_app_cons. simpl.
  by destruct (decide (d = c)).
Qed.

Lemma all_chars_app p a b :
  Url.all_chars p (a +:+ b) = Url.all_chars p a && Url.all_chars p b.
Proof.
  induction a as [|d a IH]; [done|]. rewrite str_app_cons. simpl.
  by rewrite IH, andb_assoc.
Qed.

Lemma all_chars_contains p c s :
  p c = false → Url.all_chars p s = true → Py.contains c s = false.
Proof.
  intros Hc. induction s as [|d s IH]; [done|]. simpl.
  intros [Hd Hs]%andb_true_iff. destruct (decide (d = c)) as [->|]; [congruence|auto].
Qed.

Lemma str_prefix_app a b : String.prefix a (a +:+ b) = true.
Proof.
  induction a as [|c a IH]; [by destruct b|]. rewrite str_app_cons. simpl.
  destruct (ascii_dec c c); [done|congruence].
Qed.

Lemma str_prefix_head c d a b : c ≠ d → String.prefix (String c a) (String d b) = false.
Proof. intros H. simpl. by destruct (ascii_dec c d). Qed.

(** [split] of a text without separator, and at the first separator. *)
Lemma split_no_sep c s : Py.contains c s = false → Py.split c s = [s].
Proof.
  induction s as [|d s IH]; [done|]. simpl.
  destruct (decide (d = c)); [done|]. intros H. by rewrite IH.
Qed.

Lemma split_app c a b :
  Py.contains c a = false → Py.split c (a +:+ String c b) = a :: Py.split c b.
Proof.
  induction a as [|d a IH]; intros H.
  - rewrite str_app_nil_l. simpl. by destruct (decide (c = c)).
  - simpl in H. rewrite str_app_cons. simpl.
    destruct (decide (d = c)); [done|]. by rewrite IH.
Qed.

(** Decimal digits and the sign are the only characters of [str(n)]. *)
Lemma pretty_N_go_decimal (x : N) s :
  Url.all_chars decimal_char s = true →
  Url.all_chars decimal_char (pretty_N_go x s) = true.
Proof.
  revert s. induction (N.lt_wf_0 x) as [x _ IH]; intros s Hs.
  destruct (decide (x = 0)%N) as [->|Hx]; [by rewrite pretty_N_go_0|].
  rewrite pretty_N_go_step by lia. apply IH; [apply N.div_lt; lia|].
  simpl. rewrite Hs, andb_true_r.
  unfold pretty_N_char. by repeat case_match.
Qed.

Lemma str_int_decimal (n : Z) : Url.all_chars decimal_char (Py.str_int n) = true.
Proof.
  unfold Py.str_int, pretty, pretty_Z. destruct n as [|p|p]; [done|..].
  - unfold pretty, pretty_positive, pretty, pretty_N.
    case_decide; [done|]. by apply pretty_N_go_decimal.
  - rewrite all_chars_app. apply andb_true_iff. split; [done|].
    unfold pretty, pretty_positive, pretty, pretty_N.
    case_decide; [done|]. by apply pretty_N_go_decimal.
Qed.

Lemma str_int_no_slash (n : Z) : Py.contains "/" (Py.str_int n) = false.
Proof. by apply (all_chars_contains decimal_char), str_int_decimal. Qed.

Lemma str_int_inj (m n : Z) : Py.str_int m = Py.str_int n → m = n.
Proof. apply (inj pretty). Qed.

End Strings.

(** ** Straight-line runs *)

Section Straight.

Variable P : Platform.

Lemma straight_ret {A} (a : A) : straight P [] (mret a).
Proof. intros fs. simpl. split; [done|constructor]. Qed.

Lemma straight_raise {A} e : straight P [] (raise e : M A).
Proof. intros fs. simpl. split; [done|]. by intros i ev e' ?. Qed.

Lemma straight_lift {A} (r : Res A) : straight P [] (lift r).
Proof.
  intros fs. unfold lift. destruct r; simpl.
  - split; [done|constructor].
  - split; [done|]. by intros i ev e' ?.
Qed.

Lemma straight_get_fs : straight P [] get_fs.
Proof. intros fs. simpl. split; [done|constructor]. Qed.

Lemma straight_put_fs fs' : straight P [] (put_fs fs').
Proof. intros fs. simpl. split; [done|constructor]. Qed.

Lemma straight_assert c : straight P [] (assert c).
Proof. destruct c; [apply straight_ret|apply straight_raise]. Qed.

Lemma straight_getitem {A} key (entry : option A) : straight P [] (getitem key entry).
Proof. apply straight_lift. Qed.

Lemma straight_list_item {A} (l : list A) i : straight P [] (list_item l i).
Proof. unfold list_item. destruct (l !! i); [apply straight_ret|apply straight_raise]. Qed.

Lemma straight_call ev : straight P [op_name ev] (call P ev).
Proof.
  intros fs. unfold call. destruct (fails P ev) as [e|] eqn:Hev.
  - split; [done|]. intros i ev' e' Hi He'.
    apply list_lookup_singleton_Some in Hi as [-> <-].
    split; [congruence|done].
  - split; [done|]. by repeat constructor.
Qed.

Lemma straight_bind {A B} ops1 ops2 ops (m : M A) (f : A → M B) :
  straight P ops1 m → ops = ops1 ++ ops2 → (∀ a, straight P ops2 (f a)) →
  straight P ops (m ≫= f).
Proof.
  unfold straight, quiet. intros Hm -> Hf fs. specialize (Hm fs).
  change ((m ≫= f) fs) with
    (match m fs with
     | (Ok a, fs', t) => let '(r, fs'', t') := f a fs' in (r, fs'', t ++ t')
     | (Raise e, fs', t) => (Raise e, fs', t)
     end).
  destruct (m fs) as [[[a|e] fs1] t1].
  - destruct Hm as [Hops Hnone]. specialize (Hf a fs1).
    destruct (f a fs1) as [[[b|e] fs2] t2].
    + destruct Hf as [Hops2 Hnone2]. split.
      * by rewrite fmap_app, Hops, Hops2.
      * by apply Forall_app.
    + destruct Hf as [Hpre Hlast]. split.
      * rewrite fmap_app, Hops. by apply prefix_app.
      * intros i ev e' Hi Hev.
        apply lookup_app_Some in Hi as [Hi|[Hle Hi]].
        -- rewrite Forall_lookup in Hnone. specialize (Hnone i ev Hi). congruence.
        -- destruct (Hlast _ ev e' Hi Hev) as [-> Hl]. split; [done|].
           rewrite length_app, Hl. lia.
  - destruct Hm as [Hpre Hlast]. split; [|done].
    by apply prefix_app_r.
Qed.

End Straight.

Create HintDb straight.

Ltac straight_step :=
  first
    [ apply straight_ret | apply straight_raise | apply straight_lift
    | apply straight_get_fs | apply straight_put_fs | apply straight_assert
    | apply straight_getitem | apply straight_list_item | apply straight_call
    | solve [eauto with straight]
    | eapply straight_bind; [straight_step | reflexivity | intros]
    | match goal with
      | |- straight _ _ (match ?x with _ => _ end) => destruct x
      end ].

Ltac straight_tac := repeat straight_step.

Section StraightCalls.

Variable P : Platform.

Lemma straight_print what : straight P ["print"] (print P what).
Proof. apply straight_call. Qed.

Lemma straight_getenv name : straight P ["os.getenv"] (getenv P name).
Proof. unfold getenv. straight_tac. Qed.

Lemma straight_time_ms : straight P ["time.time"] (time_ms P).
Proof. unfold time_ms. straight_tac. Qed.

Lemma straight_keras_save m filepath : straight P ["save"] (keras_save P m filepath).
Proof. unfold keras_save. straight_tac. Qed.

Lemma straight_tarfile_open name : straight P ["tarfile.open"] (tarfile_open P name).
Proof. unfold tarfile_open. straight_tac. Qed.

Lemma straight_tarfile_add archive name :
  straight P ["tar.add"] (tarfile_add P archive name).
Proof. unfold tarfile_add. straight_tac. Qed.

Lemma straight_shutil_rmtree path : straight P ["shutil.rmtree"] (shutil_rmtree P path).
Proof. unfold shutil_rmtree. straight_tac. Qed.

Lemma straight_open_read name : straight P ["open"] (open_read P name).
Proof. unfold open_read. straight_tac. Qed.

Lemma straight_os_remove name : straight P ["os.remove"] (os_remove P name).
Proof. unfold os_remove. straight_tac. Qed.

Lemma straight_s3_put key data : straight P ["s3.put"] (s3_put P key data).
Proof. unfold s3_put. straight_tac. Qed.

Lemma straight_model_from_json config custom :
  straight P ["model_from_json"] (model_from_json P config custom).
Proof. unfold model_from_json. straight_tac. Qed.

Lemma straight_set_weights m w : straight P ["set_weights"] (set_weights P m w).
Proof. unfold set_weights. straight_tac. Qed.

Lemma straight_TensorFlowModel data image role :
  straight P ["TensorFlowModel"] (TensorFlowModel P data image role).
Proof. unfold TensorFlowModel. straight_tac. Qed.

Lemma straight_tf_deploy m n ty name :
  straight P ["model.deploy"] (tf_deploy P m n ty name).
Proof. unfold tf_deploy. straight_tac. Qed.

Lemma straight_tf_predict p x : straight P ["predictor.predict"] (tf_predict P p x).
Proof. unfold tf_predict. straight_tac. Qed.

Lemma straight_Session : straight P ["sagemaker.Session"] (Session P).
Proof. apply straight_call. Qed.

Lemma straight_new_Estimator image role n ty out :
  straight P ["Estimator"] (new_Estimator P image role n ty out).
Proof. unfold new_Estimator. straight_tac. Qed.

Lemma straight_set_hyperparameters e hp :
  straight P ["set_hyperparameters"] (set_hyperparameters P e hp).
Proof. unfold set_hyperparameters. straight_tac. Qed.

Lemma straight_new_TrainingInput data ct :
  straight P ["TrainingInput"] (new_TrainingInput P data ct).
Proof. unfold new_TrainingInput. straight_tac. Qed.

Lemma straight_fit e inputs : straight P ["fit"] (fit P e inputs).
Proof. unfold fit. straight_tac. Qed.

Lemma straight_knn_deploy e n ty name :
  straight P ["knn_model.deploy"] (knn_deploy P e n ty name).
Proof. unfold knn_deploy. straight_tac. Qed.

Lemma straight_knn_predict p x args :
  straight P ["predictor.predict"] (knn_predict P p x args).
Proof. unfold knn_predict. straight_tac. Qed.

Lemma straight_similar_by_key model key topn :
  straight P ["similar_by_key"] (gensim_similar_by_key P model key topn).
Proof. unfold gensim_similar_by_key. straight_tac. Qed.

End StraightCalls.

#[export] Hint Resolve straight_print straight_getenv straight_time_ms
  straight_keras_save straight_tarfile_open straight_tarfile_add
  straight_shutil_rmtree straight_open_read straight_os_remove straight_s3_put
  straight_model_from_json straight_set_weights straight_TensorFlowModel
  straight_tf_deploy straight_tf_predict straight_Session
  straight_new_Estimator straight_set_hyperparameters
  straight_new_TrainingInput straight_fit straight_knn_deploy
  straight_knn_predict straight_similar_by_key : straight.

Lemma straight_tf_model_to_tar P m run_id :
  straight P tf_model_to_tar_ops (tf_model_to_tar P m run_id).
Proof. unfold tf_model_to_tar. straight_tac. Qed.

#[export] Hint Resolve straight_tf_model_to_tar : straight.

Lemma straight_deploy_tf_model P model run_id :
  straight P deploy_tf_model_ops (deploy_tf_model P model run_id).
Proof. unfold deploy_tf_model. straight_tac. Qed.

Lemma straight_deploy_model P path model k fd ss :
  straight P deploy_model_ops (deploy_model P path model k fd ss).
Proof. unfold deploy_model. straight_tac. Qed.

(** ** The local file system: what a removed tree leaves behind *)

Section FileSystem.

Implicit Types (fs : gmap string Node) (d p : string).

Lemma str_prefix_app_r a b s :
  String.prefix a b = true → String.prefix a (b +:+ s) = true.
Proof.
  revert b. induction a as [|c a IH]; intros [|c' b] H; try done.
  - by destruct s.
  - rewrite str_app_cons. simpl in *. destruct (ascii_dec c c'); [auto|done].
Qed.

Lemma is_under_self d : is_under d d = true.
Proof. unfold is_under. by rewrite bool_decide_eq_true_2. Qed.

Lemma is_under_below d p x : is_under d p = true → is_under d (p +:+ "/" +:+ x) = true.
Proof.
  unfold is_under. intros [Hp|Hp]%orb_true_iff; apply orb_true_iff; right.
  - apply bool_decide_eq_true in Hp as ->.
    rewrite <-str_app_assoc. apply str_prefix_app.
  - by apply str_prefix_app_r.
Qed.

Lemma model_name_dir run_id : model_name run_id = model_dir run_id +:+ "/" +:+ "1".
Proof. unfold model_name, model_dir. by rewrite str_app_assoc. Qed.

Lemma model_dir_no_slash run_id : Py.contains "/" (model_dir run_id) = false.
Proof.
  unfold model_dir. rewrite contains_app, str_int_no_slash. done.
Qed.

Lemma split_model_name run_id :
  Py.split "/" (model_name run_id) = [model_dir run_id; "1"].
Proof.
  rewrite model_name_dir.
  change ("/" +:+ "1") with (String "/" "1").
  rewrite split_app by apply model_dir_no_slash. done.
Qed.

Lemma ancestors_model_name run_id :
  ancestors (model_name run_id) = [model_dir run_id; model_name run_id].
Proof.
  unfold ancestors. rewrite split_model_name. simpl.
  by rewrite model_name_dir.
Qed.

Lemma model_name_under run_id : is_under (model_dir run_id) (model_name run_id) = true.
Proof. rewrite model_name_dir. apply is_under_below, is_under_self. Qed.

Lemma archive_outside run_id : is_under (model_dir run_id) (archive_name run_id) = false.
Proof.
  unfold is_under, model_dir, archive_name. apply orb_false_iff. split.
  - by apply bool_decide_eq_false_2.
  - rewrite str_app_assoc. by apply str_prefix_head.
Qed.

Lemma remove_tree_insert_under d p v fs :
  is_under d p = true → remove_tree d (<[p:=v]> fs) = remove_tree d fs.
Proof.
  intros H. unfold remove_tree. apply map_filter_insert_not.
  intros y Hn. simpl in Hn. rewrite H in Hn. by apply Hn.
Qed.

Lemma remove_tree_insert_outside d p v fs :
  is_under d p = false → remove_tree d (<[p:=v]> fs) = <[p:=v]> (remove_tree d fs).
Proof.
  intros H. unfold remove_tree. apply map_filter_insert_True.
  simpl. rewrite H. tauto.
Qed.

Lemma remove_tree_lookup_under d p fs :
  is_under d p = true → remove_tree d fs !! p = None.
Proof.
  intros H. unfold remove_tree. apply map_lookup_filter_None_2. right.
  intros x _ Hn. simpl in Hn. rewrite H in Hn. by apply Hn.
Qed.

Lemma remove_tree_lookup_outside d p fs :
  is_under d p = false → remove_tree d fs !! p = fs !! p.
Proof.
  intros H. unfold remove_tree. rewrite map_lookup_filter.
  destruct (fs !! p) as [x|]; simpl; [|done].
  rewrite option_guard_True; [done|]. rewrite H. tauto.
Qed.

Lemma remove_tree_write_under d root files fs :
  is_under d root = true →
  remove_tree d (write_under root files fs) = remove_tree d fs.
Proof.
  intros H. induction files as [|f files IH]; [done|]. simpl.
  rewrite remove_tree_insert_under; [done|]. by apply is_under_below.
Qed.

Lemma remove_tree_makedirs d dirs fs fs' :
  Forall (fun p => is_under d p = true) dirs →
  makedirs dirs fs = Ok fs' → remove_tree d fs' = remove_tree d fs.
Proof.
  intros Hd. revert fs. induction Hd as [|p dirs Hp Hd IH]; intros fs H.
  - by injection H as <-.
  - simpl in H. destruct (fs !! p) as [[|data]|]; try done.
    + apply IH in H. by rewrite H, remove_tree_insert_under.
    + apply IH in H. by rewrite H, remove_tree_insert_under.
Qed.

Lemma lookup_insert_outside d k p v fs :
  is_under d k = true → is_under d p = false → <[k:=v]> fs !! p = fs !! p.
Proof. intros Hk Hp. apply lookup_insert_ne. intros ->. congruence. Qed.

Lemma write_under_lookup_outside d root files fs p :
  is_under d root = true → is_under d p = false →
  write_under root files fs !! p = fs !! p.
Proof.
  intros Hr Hp. induction files as [|f files IH]; [done|]. simpl.
  rewrite (lookup_insert_outside d); [done| |done]. by apply is_under_below.
Qed.

Lemma write_under_lookup_short root files fs p :
  (String.length p ≤ String.length root)%nat →
  write_under root files fs !! p = fs !! p.
Proof.
  intros Hlen. induction files as [|f files IH]; [done|]. simpl.
  rewrite lookup_insert_ne; [done|]. intros <-.
  rewrite !str_app_length in Hlen. simpl in Hlen. lia.
Qed.

Lemma model_dir_ne_name run_id : model_dir run_id ≠ model_name run_id.
Proof.
  intros H. apply (f_equal String.length) in H.
  rewrite model_name_dir, !str_app_length in H. simpl in H. lia.
Qed.

Lemma model_dir_shorter run_id :
  (String.length (model_dir run_id) ≤ String.length (model_name run_id))%nat.
Proof. rewrite model_name_dir, !str_app_length. lia. Qed.

(** A path that holds no file can be made a directory. *)
Lemma makedirs_model run_id fs :
  is_file (fs !! model_dir run_id) = false →
  is_file (fs !! model_name run_id) = false →
  makedirs [model_dir run_id; model_name run_id] fs
  = Ok (<[model_name run_id := Dir]> (<[model_dir run_id := Dir]> fs)).
Proof.
  intros Hd Hn. simpl.
  assert (<[model_dir run_id:=Dir]> fs !! model_name run_id = fs !! model_name run_id)
    as Hl by apply lookup_insert_ne, model_dir_ne_name.
  destruct (fs !! model_dir run_id) as [[|?]|]; try done; rewrite Hl;
    by destruct (fs !! model_name run_id) as [[|?]|].
Qed.

Lemma archive_ne_under run_id p :
  is_under (model_dir run_id) p = true → archive_name run_id ≠ p.
Proof. intros Hp <-. rewrite archive_outside in Hp. done. Qed.

Lemma saved_state_archive files run_id fs :
  saved_state files run_id fs !! archive_name run_id = fs !! archive_name run_id.
Proof.
  unfold saved_state.
  rewrite (write_under_lookup_outside (model_dir run_id))
    by auto using model_name_under, archive_outside.
  by rewrite !(lookup_insert_outside (model_dir run_id))
    by auto using model_name_under, archive_outside, is_under_self.
Qed.

Lemma saved_state_name files run_id fs x :
  <[archive_name run_id := x]> (saved_state files run_id fs) !! model_name run_id
  = Some Dir.
Proof.
  rewrite lookup_insert_ne by apply archive_ne_under, model_name_under.
  unfold saved_state. rewrite write_under_lookup_short by done.
  apply lookup_insert_eq.
Qed.

Lemma saved_state_dir files run_id fs x y :
  <[archive_name run_id := y]>
    (<[archive_name run_id := x]> (saved_state files run_id fs))
  !! model_dir run_id = Some Dir.
Proof.
  rewrite !lookup_insert_ne by apply archive_ne_under, is_under_self.
  unfold saved_state. rewrite write_under_lookup_short by apply model_dir_shorter.
  rewrite lookup_insert_ne by (apply not_eq_sym, model_dir_ne_name).
  apply lookup_insert_eq.
Qed.

End FileSystem.

(** ** Runs that return *)

(** Unfolding of the calls of a run, and a case split at the next
    undecided answer. *)
Ltac run_unfold_in H :=
  cbv [keras_save tarfile_open tarfile_add
       shutil_rmtree open_read os_remove s3_put model_from_json set_weights
       TensorFlowModel tf_deploy tf_predict Session new_Estimator
       set_hyperparameters new_TrainingInput fit knn_deploy knn_predict
       gensim_similar_by_key print getenv time_ms call
       mbind M_bind mret M_ret Res_bind Res_ret raise lift get_fs put_fs
       assert getitem dict_item list_item
       tfm_config tfm_custom_objects tfm_weights predictor_endpoint
       est_image_uri est_role est_instance_count est_instance_type
       est_output_path est_hyperparameters est_training] in H.

Ltac run_unfold :=
  cbv [keras_save tarfile_open tarfile_add
       shutil_rmtree open_read os_remove s3_put model_from_json set_weights
       TensorFlowModel tf_deploy tf_predict Session new_Estimator
       set_hyperparameters new_TrainingInput fit knn_deploy knn_predict
       gensim_similar_by_key print getenv time_ms call
       mbind M_bind mret M_ret Res_bind Res_ret raise lift get_fs put_fs
       assert getitem dict_item list_item
       tfm_config tfm_custom_objects tfm_weights predictor_endpoint
       est_image_uri est_role est_instance_count est_instance_type
       est_output_path est_hyperparameters est_training].

Ltac run_step_in H :=
  match type of H with
  | context [match ?x with _ => _ end] =>
      lazymatch x with
      | context [match _ with _ => _ end] => fail
      | _ => destruct x eqn:?
      end
  end; cbv beta iota zeta in H; try discriminate H.


(** The hypotheses of a quiet trace, one by one, and their use. *)
Ltac split_quiet H :=
  cbv [quiet tf_model_to_tar_trace deploy_tf_model_trace deploy_model_trace
       knn_image knn_hyperparams knn_predict_args loaded_model tf_test_input] in H;
  repeat (apply Forall_cons_1 in H as [?Hquiet H]); clear H.

Ltac use_quiet :=
  match goal with
  | Hq : fails ?P ?ev = None |- context [fails ?P ?ev] => rewrite Hq
  end.

Ltac use_quiet_in H :=
  match type of H with
  | context [fails ?P ?ev] =>
      match goal with
      | Hq : fails P ev = None |- _ => rewrite Hq in H
      end
  end.

Section Runs.

Variable P : Platform.

Lemma makedirs_model_inv run_id fs a :
  makedirs [model_dir run_id; model_name run_id] fs = Ok a →
  a = <[model_name run_id := Dir]> (<[model_dir run_id := Dir]> fs).
Proof.
  simpl. intros H.
  destruct (fs !! model_dir run_id) as [[|?]|]; try done;
    destruct (_ !! model_name run_id) as [[|?]|]; by simplify_eq.
Qed.

Lemma tf_model_to_tar_inv m run_id fs name fs' t :
  tf_model_to_tar P m run_id fs = (Ok name, fs', t) →
  name = archive_name run_id
  ∧ fs' = <[archive_name run_id := File (archive_bytes P m run_id fs)]>
            (remove_tree (model_dir run_id) fs)
  ∧ t = tf_model_to_tar_trace run_id.
Proof.
  intros H. unfold tf_model_to_tar in H. run_unfold_in H.
  change ("intent-model-" +:+ Py.str_int run_id +:+ "/1") with (model_name run_id) in H.
  change ("model-" +:+ Py.str_int run_id +:+ ".tar.gz") with (archive_name run_id) in H.
  rewrite split_model_name, ancestors_model_name in H.
  repeat run_step_in H.
  all: match goal with
       | Hm : makedirs _ _ = Ok _ |- _ => apply makedirs_model_inv in Hm as ->
       end.
  all: injection H as <- <- <-.
  all: split; [done|split; [|done]].
  all: rewrite insert_insert_eq, remove_tree_insert_outside by apply archive_outside.
  all: rewrite remove_tree_write_under by apply model_name_under.
  all: rewrite !remove_tree_insert_under by auto using is_under_self, model_name_under.
  all: done.
Qed.

Lemma tf_model_to_tar_run m run_id fs :
  quiet P (tf_model_to_tar_trace run_id) →
  paths_free run_id fs →
  tf_model_to_tar P m run_id fs
  = (Ok (archive_name run_id),
     <[archive_name run_id := File (archive_bytes P m run_id fs)]>
       (remove_tree (model_dir run_id) fs),
     tf_model_to_tar_trace run_id).
Proof.
  intros Hq (Hd & Hn & Ht). split_quiet Hq.
  destruct (tf_model_to_tar P m run_id fs) as [[[name|e] fs'] t] eqn:H.
  { by apply tf_model_to_tar_inv in H as (-> & -> & ->). }
  exfalso. unfold tf_model_to_tar in H. run_unfold_in H.
  change ("intent-model-" +:+ Py.str_int run_id +:+ "/1") with (model_name run_id) in H.
  change ("model-" +:+ Py.str_int run_id +:+ ".tar.gz") with (archive_name run_id) in H.
  rewrite split_model_name, ancestors_model_name in H.
  change (default "" (list.head [model_dir run_id; "1"])) with (model_dir run_id) in H.
  use_quiet_in H. rewrite makedirs_model in H by done. cbv beta iota zeta in H.
  fold (saved_state (saved_files P m) run_id fs) in H.
  use_quiet_in H. cbv beta iota zeta in H.
  rewrite saved_state_archive in H.
  destruct (fs !! archive_name run_id) as [[|data]|]; [done|..];
    repeat (first [use_quiet_in H | rewrite saved_state_name in H
                  | rewrite saved_state_dir in H];
            cbv beta iota zeta in H);
    discriminate H.
Qed.

(** *** [deploy_tf_model] *)

Lemma deploy_tf_model_inv model run_id fs path name fs' t :
  deploy_tf_model P model run_id fs = (Ok (path, name), fs', t) →
  ∃ config weights,
    let arch := archive_bytes P (loaded_model model config weights) run_id fs in
    md_model model = Some config ∧ md_weights model = Some weights
    ∧ path = s3_url P (archive_name run_id) arch
    ∧ name = tf_endpoint_name (now_ms P)
    ∧ tf_predictions (tf_response P name tf_test_input) ≠ []
    ∧ fs' = delete (archive_name run_id) (remove_tree (model_dir run_id) fs)
    ∧ t = deploy_tf_model_trace P model config weights arch run_id.
Proof.
  intros H. unfold deploy_tf_model in H. run_unfold_in H.
  repeat run_step_in H.
  match goal with
  | Htar : tf_model_to_tar _ _ _ _ = _ |- _ =>
      apply tf_model_to_tar_inv in Htar as (-> & -> & ->)
  end.
  match goal with
  | Hl : <[_:=_]> _ !! _ = Some _ |- _ => rewrite lookup_insert_eq in Hl
  end.
  simplify_eq. eexists _, _. cbv zeta. repeat split; try done.
  - intros Hnil.
    match goal with
    | Ht : truthy _ = true |- _ =>
        change (truthy (tf_predictions
                  (tf_response P (tf_endpoint_name (now_ms P)) tf_test_input))
                = true) in Ht;
        by rewrite Hnil in Ht
    end.
  - apply delete_insert_eq.
Qed.

Lemma deploy_tf_model_run model run_id fs config weights :
  let arch := archive_bytes P (loaded_model model config weights) run_id fs in
  md_model model = Some config → md_weights model = Some weights →
  paths_free run_id fs →
  quiet P (deploy_tf_model_trace P model config weights arch run_id) →
  deploy_tf_model P model run_id fs
  = (if truthy (tf_predictions
                  (tf_response P (tf_endpoint_name (now_ms P)) tf_test_input))
     then Ok (s3_url P (archive_name run_id) arch, tf_endpoint_name (now_ms P))
     else Raise AssertionError,
     delete (archive_name run_id) (remove_tree (model_dir run_id) fs),
     deploy_tf_model_trace P model config weights arch run_id).
Proof.
  intros arch Hm Hw Hfree Hq. subst arch. split_quiet Hq.
  assert (quiet P (tf_model_to_tar_trace run_id)) as Htq
    by (repeat constructor; assumption).
  pose proof (tf_model_to_tar_run (loaded_model model config weights)
                run_id fs Htq Hfree) as Htar.
  unfold loaded_model in Htar.
  unfold deploy_tf_model. run_unfold. rewrite Hm, Hw.
  cbv beta iota zeta.
  repeat (first [use_quiet | rewrite Htar | rewrite lookup_insert_eq];
          cbv beta iota zeta).
  rewrite delete_insert_eq.
  by destruct (truthy _).
Qed.

(** *** [deploy_model] *)

(** The comparison of two one dimensional arrays is equality of lists. *)
Lemma np_array_equal_spec (a1 : list Z) (a2 : list Qc) :
  np_array_equal a1 a2 = true ↔ Qc_of_Z <$> a1 = a2.
Proof.
  unfold np_array_equal. destruct (decide (length a1 = length a2)) as [Hl|Hl].
  - revert a2 Hl. induction a1 as [|x a1 IH]; intros [|y a2] Hl; try done.
    injection Hl as Hl. specialize (IH a2 Hl).
    rewrite fmap_cons. cbn [zip zip_with forallb fst snd].
    rewrite andb_true_iff, bool_decide_eq_true, IH.
    split; [by intros [-> ->]|]. by intros [= -> ->].
  - split; [done|]. intros <-. by rewrite length_fmap in Hl.
Qed.

Lemma indices_of_length model ns l :
  indices_of model ns = Ok l → length l = length ns.
Proof.
  revert l. induction ns as [|n ns IH]; intros l H; simpl in H.
  - by injection H as <-.
  - destruct (key_to_index model !! n.1); [|done]. simpl in H.
    destruct (indices_of model ns) as [rest|]; [|done].
    injection H as <-. simpl. f_equal. by apply IH.
Qed.

Lemma deploy_model_inv path model k fd ss fs name fs' t :
  deploy_model P path model k fd ss fs = (Ok name, fs', t) →
  ∃ out test_key test_vector preds pred,
    TARGET_S3_OUTPUT_PATH P path = Ok out
    ∧ index_to_key model !! 0%nat = Some test_key
    ∧ get_vector model !! test_key = Some test_vector
    ∧ indices_of model (similar_by_key model test_key (k - 1)) = Ok preds
    ∧ knn_predictions (knn_response P name test_vector knn_predict_args) !! 0%nat
      = Some pred
    ∧ name = knn_endpoint_name (now_ms P)
    ∧ np_array_equal preds (Py.reversed_tail (labels pred)) = true
    ∧ fs' = fs
    ∧ t = deploy_model_trace P path k fd ss out test_key test_vector preds pred.
Proof.
  intros H. unfold deploy_model in H. run_unfold_in H.
  repeat run_step_in H.
  simplify_eq. eexists _, _, _, _, _.
  split_and!; [reflexivity|reflexivity|eassumption|eassumption|eassumption
              |reflexivity|eassumption|reflexivity|reflexivity].
Qed.

Lemma deploy_model_run path model k fd ss fs out test_key test_vector preds pred :
  TARGET_S3_OUTPUT_PATH P path = Ok out →
  index_to_key model !! 0%nat = Some test_key →
  get_vector model !! test_key = Some test_vector →
  indices_of model (similar_by_key model test_key (k - 1)) = Ok preds →
  knn_predictions
    (knn_response P (knn_endpoint_name (now_ms P)) test_vector knn_predict_args)
    !! 0%nat = Some pred →
  quiet P (deploy_model_trace P path k fd ss out test_key test_vector preds pred) →
  deploy_model P path model k fd ss fs
  = (if np_array_equal preds (Py.reversed_tail (labels pred))
     then Ok (knn_endpoint_name (now_ms P)) else Raise AssertionError,
     fs,
     deploy_model_trace P path k fd ss out test_key test_vector preds pred).
Proof.
  intros Hout Hkey Hvec Hpreds Hpred Hq. split_quiet Hq.
  unfold knn_predict_args in Hpred. unfold deploy_model. run_unfold.
  repeat (first [use_quiet | rewrite Hout | rewrite Hkey | rewrite Hvec
                | rewrite Hpreds | rewrite Hpred];
          cbv beta iota zeta).
  by destruct (np_array_equal _ _).
Qed.

End Runs.

(** ** S3 urls through [urlparse], [strip], [split] and [os.path.join] *)

Section S3Paths.

Implicit Types (a b s : string) (c : ascii) (comps segs : list string).

Lemma all_chars_impl (p q : ascii → bool) s :
  (∀ c, p c = true → q c = true) →
  Url.all_chars p s = true → Url.all_chars q s = true.
Proof.
  intros Hpq. induction s as [|c s IH]; [done|]. simpl.
  intros [Hc Hs]%andb_true_iff. by rewrite (Hpq c Hc), IH.
Qed.

Lemma component_char_path c : component_char c = true → path_char c = true.
Proof.
  unfold component_char, path_char, Url.netloc_delim.
  intros [Hd ->]%andb_true_iff. rewrite andb_true_r.
  apply negb_true_iff, bool_decide_eq_false in Hd.
  apply negb_true_iff, bool_decide_eq_false. tauto.
Qed.

Lemma component_char_no_slash c : component_char c = true → c ≠ "/"%char.
Proof.
  unfold component_char, Url.netloc_delim.
  intros [Hd _]%andb_true_iff ->. by vm_compute in Hd.
Qed.

Lemma bucket_char_component c : bucket_char c = true → component_char c = true.
Proof. unfold bucket_char. by intros [[-> _]%andb_true_iff _]%andb_true_iff. Qed.

Lemma component_spec s :
  component s = true → s ≠ "" ∧ Url.all_chars component_char s = true.
Proof.
  unfold component. intros [Hne ->]%andb_true_iff. split; [|done].
  by apply negb_true_iff, bool_decide_eq_false in Hne.
Qed.

Lemma component_no_slash s :
  Url.all_chars component_char s = true → Py.contains "/" s = false.
Proof. by apply all_chars_contains. Qed.

Lemma remove_unsafe_id s :
  Url.all_chars path_char s = true → Url.remove_unsafe s = s.
Proof.
  induction s as [|c s IH]; [done|]. simpl.
  intros [Hc Hs]%andb_true_iff. unfold path_char in Hc.
  apply andb_true_iff in Hc as [_ Hc]. apply negb_true_iff in Hc.
  by rewrite Hc, IH.
Qed.

Lemma split_netloc_app b r :
  Url.all_chars (fun c => negb (Url.netloc_delim c)) b = true →
  Url.split_netloc (b +:+ String "/" r) = (b, String "/" r).
Proof.
  induction b as [|c b IH]; [done|]. rewrite str_app_cons. simpl.
  intros [Hc Hb]%andb_true_iff. apply negb_true_iff in Hc.
  by rewrite Hc, IH.
Qed.

(** [join] and its pieces. *)
Lemma join_cons x y comps :
  Py.join "/" (x :: y :: comps) = x +:+ String "/" (Py.join "/" (y :: comps)).
Proof. reflexivity. Qed.

Lemma all_chars_cons p c s :
  Url.all_chars p (String c s) = p c && Url.all_chars p s.
Proof. reflexivity. Qed.

Lemma all_chars_join p comps :
  p "/"%char = true → Forall (fun s => Url.all_chars p s = true) comps →
  Url.all_chars p (Py.join "/" comps) = true.
Proof.
  intros Hsl. induction 1 as [|x comps Hx Hcs IH]; [done|].
  destruct comps as [|y comps]; [done|].
  by rewrite join_cons, all_chars_app, Hx, all_chars_cons, Hsl, IH.
Qed.

Lemma split_join comps :
  comps ≠ [] → Forall (fun s => Py.contains "/" s = false) comps →
  Py.split "/" (Py.join "/" comps) = comps.
Proof.
  intros Hne Hall. induction Hall as [|x comps Hx Hcs IH]; [done|].
  destruct comps as [|y comps]; [by apply split_no_sep|].
  rewrite join_cons, split_app by done. by rewrite IH.
Qed.

Lemma startswith_app c a b :
  a ≠ "" → Py.startswith c (a +:+ b) = Py.startswith c a.
Proof. by destruct a. Qed.

Lemma endswith_app c a b :
  b ≠ "" → Py.endswith c (a +:+ b) = Py.endswith c b.
Proof.
  intros Hb. induction a as [|d a IH]; [done|]. rewrite str_app_cons.
  simpl. rewrite IH. destruct (a +:+ b) eqn:Hab; [|done].
  by destruct a, b.
Qed.

Lemma startswith_contains c s : Py.contains c s = false → Py.startswith c s = false.
Proof.
  destruct s as [|d s]; [done|]. simpl.
  destruct (decide (d = c)); [done|]. intros _. by apply bool_decide_eq_false.
Qed.

Lemma endswith_contains c s : Py.contains c s = false → Py.endswith c s = false.
Proof.
  induction s as [|d s IH]; [done|]. simpl.
  destruct (decide (d = c)); [done|]. intros Hs.
  destruct s; [by apply bool_decide_eq_false|by apply IH].
Qed.

Lemma startswith_join comps :
  Forall (fun s => s ≠ "" ∧ Py.contains "/" s = false) comps →
  Py.startswith "/" (Py.join "/" comps) = false.
Proof.
  intros [|x l [Hne Hx] _]; [done|].
  destruct l as [|y l]; [by apply startswith_contains|].
  rewrite join_cons, startswith_app by done. by apply startswith_contains.
Qed.

Lemma endswith_join comps :
  Forall (fun s => s ≠ "" ∧ Py.contains "/" s = false) comps →
  Py.endswith "/" (Py.join "/" comps) = false.
Proof.
  induction 1 as [|x comps [Hne Hx] Hcs IH]; [done|].
  destruct comps as [|y comps]; [by apply endswith_contains|].
  rewrite join_cons.
  change (x +:+ String "/" (Py.join "/" (y :: comps)))
    with (x +:+ "/" +:+ Py.join "/" (y :: comps)).
  rewrite <-str_app_assoc, endswith_app; [done|].
  inversion Hcs as [|?? [Hy _] _]; subst.
  destruct comps; [done|]. rewrite join_cons. by destruct y.
Qed.

Lemma lstrip_id c s : Py.startswith c s = false → Py.lstrip c s = s.
Proof.
  destruct s as [|d s]; [done|]. simpl. intros H%bool_decide_eq_false.
  by rewrite decide_False.
Qed.

Lemma rstrip_id c s : Py.endswith c s = false → Py.rstrip c s = s.
Proof.
  induction s as [|d s IH]; [done|]. simpl. destruct s as [|d' s].
  - intros H%bool_decide_eq_false. simpl. by rewrite decide_False.
  - intros H. rewrite IH by done. done.
Qed.

(** [os.path.join] over path components puts one slash between them. *)
Lemma path_join_components acc segs :
  acc ≠ "" → Py.endswith "/" acc = false →
  Forall (fun s => s ≠ "" ∧ Py.contains "/" s = false) segs →
  Py.path_join acc segs
  = match segs with [] => acc | _ => acc +:+ "/" +:+ Py.join "/" segs end.
Proof.
  intros Hne Hend Hsegs. revert acc Hne Hend.
  induction Hsegs as [|x segs [Hx Hxs] Hsegs IH]; intros acc Hne Hend; [done|].
  change (Py.path_join acc (x :: segs))
    with (Py.path_join (Py.path_join_step acc x) segs).
  assert (Py.path_join_step acc x = acc +:+ "/" +:+ x) as ->.
  { unfold Py.path_join_step.
    rewrite (startswith_contains _ _ Hxs), Hend, orb_false_r.
    by rewrite bool_decide_eq_false_2. }
  rewrite IH.
  - destruct segs as [|y segs]; [done|].
    rewrite join_cons. by rewrite !str_app_assoc.
  - by destruct acc.
  - rewrite <-str_app_assoc, endswith_app by done. by apply endswith_contains.
Qed.

End S3Paths.

Section S3Urls.

Implicit Types (bucket last : string) (comps segs : list string).

Lemma lstrip_c0_s3 x : Url.lstrip_c0 ("s3://" +:+ x) = "s3://" +:+ x.
Proof. reflexivity. Qed.

Lemma split_scheme_s3 x : Url.split_scheme ("s3://" +:+ x) = ("s3", String "/" (String "/" x)).
Proof. reflexivity. Qed.

Lemma bucket_name_spec bucket :
  bucket_name bucket = true →
  bucket ≠ "" ∧ Url.all_chars bucket_char bucket = true.
Proof.
  unfold bucket_name. intros [Hne ->]%andb_true_iff. split; [|done].
  by apply negb_true_iff, bool_decide_eq_false in Hne.
Qed.

Lemma netloc_ok_bucket hc bucket :
  Url.all_chars bucket_char bucket = true → Url.netloc_ok hc bucket = true.
Proof.
  intros Hb. unfold Url.netloc_ok.
  assert (Py.contains "[" bucket = false) as ->.
  { apply (all_chars_contains bucket_char); [done|done]. }
  assert (Py.contains "]" bucket = false) as ->.
  { apply (all_chars_contains bucket_char); [done|done]. }
  assert (Url.is_ascii bucket = true) as ->; [|done].
  unfold Url.is_ascii. eapply all_chars_impl; [|exact Hb].
  unfold bucket_char. by intros c [[_ ->]%andb_true_iff _]%andb_true_iff.
Qed.

Lemma urlparse_s3_path hc bucket comps :
  Url.all_chars bucket_char bucket = true →
  Forall (fun s => Url.all_chars component_char s = true) comps →
  Url.urlparse hc (s3_path bucket comps)
  = Ok {| Url.scheme := "s3"; Url.netloc := bucket;
          Url.path := String "/" (Py.join "/" comps);
          Url.params := ""; Url.query := ""; Url.fragment := "" |}.
Proof.
  intros Hb Hc.
  assert (Url.all_chars path_char (Py.join "/" comps) = true) as Hrest.
  { apply all_chars_join; [done|]. eapply Forall_impl; [exact Hc|]. simpl.
    intros s Hs. eapply all_chars_impl; [|exact Hs]. apply component_char_path. }
  assert (Url.all_chars path_char bucket = true) as Hbp.
  { eapply all_chars_impl; [|exact Hb].
    intros c Hcb. by apply component_char_path, bucket_char_component. }
  unfold Url.urlparse, Url.urlsplit, s3_path.
  rewrite lstrip_c0_s3, remove_unsafe_id
    by (by rewrite !all_chars_app, Hbp, Hrest).
  rewrite split_scheme_s3.
  change ("/" +:+ Py.join "/" comps) with (String "/" (Py.join "/" comps)).
  rewrite split_netloc_app.
  2:{ eapply all_chars_impl; [|exact Hb]. intros c Hcb.
      apply bucket_char_component in Hcb. unfold component_char in Hcb.
      by apply andb_true_iff in Hcb as [-> _]. }
  assert (Py.contains "#" (String "/" (Py.join "/" comps)) = false) as ->.
  { apply (all_chars_contains path_char); [done|]. by rewrite all_chars_cons, Hrest. }
  assert (Py.contains "?" (String "/" (Py.join "/" comps)) = false) as ->.
  { apply (all_chars_contains path_char); [done|]. by rewrite all_chars_cons, Hrest. }
  by rewrite netloc_ok_bucket.
Qed.

Lemma output_path_of_s3_path P bucket segs last :
  bucket_name bucket = true →
  Forall (fun s => component s = true) segs →
  component last = true →
  TARGET_S3_OUTPUT_PATH P (s3_path bucket (segs ++ [last]))
  = Ok ("s3://" +:+ Py.join "/" (bucket :: segs)).
Proof.
  intros [Hbne Hb]%bucket_name_spec Hsegs [Hlne Hl]%component_spec.
  assert (Forall (fun s => s ≠ "" ∧ Url.all_chars component_char s = true)
            (segs ++ [last])) as Hall.
  { apply Forall_app. split; [|by repeat constructor].
    eapply Forall_impl; [exact Hsegs|]. apply component_spec. }
  assert (Forall (fun s => s ≠ "" ∧ Py.contains "/" s = false)
            (segs ++ [last])) as Hgood.
  { eapply Forall_impl; [exact Hall|]. simpl. intros s [? ?].
    split; [done|]. by apply component_no_slash. }
  unfold TARGET_S3_OUTPUT_PATH.
  rewrite urlparse_s3_path; [|done|].
  2:{ eapply Forall_impl; [exact Hall|]. by intros s [_ ?]. }
  simpl. f_equal. f_equal.
  unfold Py.strip. change (Py.lstrip "/" (String "/" ?s)) with (Py.lstrip "/" s).
  rewrite lstrip_id by (by apply startswith_join).
  rewrite rstrip_id by (by apply endswith_join).
  rewrite split_join.
  - unfold Py.drop_last. rewrite removelast_last.
    rewrite path_join_components.
    + by destruct segs.
    + done.
    + apply endswith_contains, component_no_slash.
      eapply all_chars_impl; [|exact Hb]. apply bucket_char_component.
    + apply Forall_app in Hgood as [? _]. done.
  - by destruct segs.
  - eapply Forall_impl; [exact Hgood|]. by intros s [_ ?].
Qed.

End S3Urls.

(** ** From a straight-line run to the order of its calls *)

Lemma run_result_inv {A} (m : M A) fs a :
  result m fs = Ok a → ∃ fs' t, m fs = (Ok a, fs', t).
Proof.
  unfold result. destruct (m fs) as [[r fs'] t]. simpl. intros ->. eauto.
Qed.

Lemma filter_prefix {A} (p : A → Prop) `{!∀ x, Decision (p x)} (l1 l2 : list A) :
  l1 `prefix_of` l2 → filter p l1 `prefix_of` filter p l2.
Proof. intros [k ->]. rewrite filter_app. by apply prefix_app_r. Qed.

Lemma NoDup_prefix {A} (l1 l2 : list A) :
  l1 `prefix_of` l2 → NoDup l2 → NoDup l1.
Proof. intros [k ->] H. by apply NoDup_app in H as [? _]. Qed.


Lemma straight_uncaught {A} P ops sdk (m : M A) :
  straight P ops m →
  NoDup (filter (fun o => o ∈ sdk) ops) →
  uncaught P sdk m.
Proof.
  intros Hs Hnd fs. specialize (Hs fs). unfold trace, result, calls_among.
  destruct (m fs) as [[[a|e] fs'] t]; simpl.
  - destruct Hs as [Hops Hq]. split; [|by rewrite Hops].
    intros i ev e Hi Hf. pose proof (Forall_lookup_1 _ _ _ _ Hq Hi). congruence.
  - destruct Hs as [Hpre Hlast]. split.
    + intros i ev e' Hi Hf. by destruct (Hlast i ev e' Hi Hf) as [-> ->].
    + eapply NoDup_prefix; [|done]. by apply filter_prefix.
Qed.




(** The [Estimator] call of a run of [deploy_model]. *)
Lemma deploy_model_estimator P url model k fd ss fs out i ev :
  TARGET_S3_OUTPUT_PATH P url = Ok out →
  trace (deploy_model P url model k fd ss) fs !! i = Some ev →
  op_name ev = "Estimator" →
  ev = EEstimator knn_image (environ P !! "IAM_SAGEMAKER_ROLE") 1 "ml.m5.large" out.
Proof.
  intros Hout H Hev. unfold trace, deploy_model in H. run_unfold_in H.
  rewrite Hout in H. cbv beta iota zeta in H.
  repeat run_step_in H.
  all: cbn [snd app] in H.
  all: repeat (destruct i as [|i];
               [cbn [lookup list_lookup] in H; injection H as <-;
                first [discriminate Hev | reflexivity]|]).
  all: done.
Qed.

Lemma deploy_model_reaches_estimator P url model k fd ss fs out :
  TARGET_S3_OUTPUT_PATH P url = Ok out →
  quiet P [ETime; EPrint (PText (endpoint_banner (knn_endpoint_name (now_ms P))));
           EGetenv "IAM_SAGEMAKER_ROLE"; ESession] →
  trace (deploy_model P url model k fd ss) fs !! 4%nat
  = Some (EEstimator knn_image (environ P !! "IAM_SAGEMAKER_ROLE") 1
            "ml.m5.large" out).
Proof.
  intros Hout Hq. split_quiet Hq.
  destruct (trace (deploy_model P url model k fd ss) fs !! 4%nat) as [ev|] eqn:H.
  all: unfold trace, deploy_model in H; run_unfold_in H.
  all: rewrite Hout in H; cbv beta iota zeta in H.
  all: repeat (use_quiet_in H; cbv beta iota zeta in H).
  all: repeat run_step_in H.
  all: cbn [snd app lookup list_lookup] in H.
  all: by simplify_eq.
Qed.


(** ** What a run leaves untouched *)

Section Footprint.

Variable P : Platform.

Lemma touches_only_bind {A B} al (m : M A) (f : A → M B) :
  touches_only al m → (∀ a, touches_only al (f a)) → touches_only al (m ≫= f).
Proof.
  intros Hm Hf fs p Hp. specialize (Hm fs p Hp). unfold final_fs in *.
  change ((m ≫= f) fs) with
    (match m fs with
     | (Ok a, fs', t) => let '(r, fs'', t') := f a fs' in (r, fs'', t ++ t')
     | (Raise e, fs', t) => (Raise e, fs', t)
     end).
  destruct (m fs) as [[[a|e] fs1] t1]; simpl in *; [|done].
  specialize (Hf a fs1 p Hp). unfold final_fs in Hf.
  destruct (f a fs1) as [[r fs2] t2]. simpl in *. congruence.
Qed.

(** The same, knowing that the value passed on is one [m] returns. *)
Lemma touches_only_bind_value {A B} al (m : M A) (f : A → M B) :
  touches_only al m →
  (∀ a fs fs' t, m fs = (Ok a, fs', t) → touches_only al (f a)) →
  touches_only al (m ≫= f).
Proof.
  intros Hm Hf fs p Hp. specialize (Hm fs p Hp). unfold final_fs in *.
  change ((m ≫= f) fs) with
    (match m fs with
     | (Ok a, fs', t) => let '(r, fs'', t') := f a fs' in (r, fs'', t ++ t')
     | (Raise e, fs', t) => (Raise e, fs', t)
     end).
  destruct (m fs) as [[[a|e] fs1] t1] eqn:Hrun; simpl in *; [|done].
  specialize (Hf a fs fs1 t1 Hrun fs1 p Hp). unfold final_fs in Hf.
  destruct (f a fs1) as [[r fs2] t2]. simpl in *. congruence.
Qed.

(** A computation that never writes the file system. *)
Lemma touches_only_keeps {A} al (m : M A) :
  (∀ fs, final_fs m fs = fs) → touches_only al m.
Proof. intros H fs p _. by rewrite H. Qed.

Lemma run_paths_spec run_id p :
  run_paths run_id p = false →
  p ≠ archive_name run_id ∧ is_under (model_dir run_id) p = false.
Proof.
  unfold run_paths. intros [Ha Hd]%orb_false_iff. split; [|done].
  by apply bool_decide_eq_false in Ha.
Qed.

Lemma touches_only_keras_save m run_id :
  touches_only (run_paths run_id) (keras_save P m (model_name run_id)).
Proof.
  intros fs p [Ha Hd]%run_paths_spec. unfold final_fs, keras_save. run_unfold.
  rewrite ancestors_model_name.
  destruct (fails P _); [done|].
  destruct (makedirs _ fs) as [fs1|e] eqn:Hm; [|done].
  apply makedirs_model_inv in Hm as ->. simpl.
  rewrite (write_under_lookup_outside (model_dir run_id))
    by auto using model_name_under.
  by rewrite !(lookup_insert_outside (model_dir run_id))
    by auto using model_name_under, is_under_self.
Qed.

Lemma touches_only_tarfile_open run_id :
  touches_only (run_paths run_id) (tarfile_open P (archive_name run_id)).
Proof.
  intros fs p [Ha Hd]%run_paths_spec. unfold final_fs, tarfile_open. run_unfold.
  destruct (fails P _); [done|].
  destruct (fs !! archive_name run_id) as [[|data]|]; simpl; try done.
  all: by rewrite lookup_insert_ne.
Qed.

Lemma touches_only_tarfile_add run_id name :
  touches_only (run_paths run_id) (tarfile_add P (archive_name run_id) name).
Proof.
  intros fs p [Ha Hd]%run_paths_spec. unfold final_fs, tarfile_add. run_unfold.
  destruct (fails P _); [done|].
  destruct (fs !! name); simpl; [|done]. by rewrite lookup_insert_ne.
Qed.

Lemma touches_only_shutil_rmtree run_id :
  touches_only (run_paths run_id) (shutil_rmtree P (model_dir run_id)).
Proof.
  intros fs p [Ha Hd]%run_paths_spec. unfold final_fs, shutil_rmtree. run_unfold.
  destruct (fails P _); [done|].
  destruct (fs !! model_dir run_id) as [[|data]|]; simpl; try done.
  by apply remove_tree_lookup_outside.
Qed.

Lemma touches_only_os_remove run_id :
  touches_only (run_paths run_id) (os_remove P (archive_name run_id)).
Proof.
  intros fs p [Ha Hd]%run_paths_spec. unfold final_fs, os_remove. run_unfold.
  destruct (fails P _); [done|].
  destruct (fs !! archive_name run_id) as [[|data]|]; simpl; try done.
  by rewrite lookup_delete_ne.
Qed.

End Footprint.

(** One step through a sequence of calls: a call that writes the file
    system by its own lemma, a bind by its two sides, and any other call by
    evaluation. *)
Ltac footprint_step :=
  cbv zeta;
  first
    [ apply touches_only_keras_save
    | apply touches_only_tarfile_open
    | apply touches_only_tarfile_add
    | apply touches_only_shutil_rmtree
    | apply touches_only_os_remove
    | assumption
    | apply touches_only_bind; [|intros ?]
    | apply touches_only_keeps; intros ?; unfold final_fs; run_unfold;
      repeat case_match; reflexivity ].

Lemma touches_only_tf_model_to_tar P m run_id :
  touches_only (run_paths run_id) (tf_model_to_tar P m run_id).
Proof.
  unfold tf_model_to_tar.
  change ("intent-model-" +:+ Py.str_int run_id +:+ "/1") with (model_name run_id).
  change ("model-" +:+ Py.str_int run_id +:+ ".tar.gz") with (archive_name run_id).
  rewrite split_model_name.
  change (default "" (list.head [model_dir run_id; "1"])) with (model_dir run_id).
  repeat footprint_step.
Qed.

Lemma touches_only_deploy_tf_model P model run_id :
  touches_only (run_paths run_id) (deploy_tf_model P model run_id).
Proof.
  unfold deploy_tf_model.
  repeat first
    [ apply touches_only_bind_value;
      [apply touches_only_tf_model_to_tar
      |intros ???? (-> & _ & _)%tf_model_to_tar_inv]
    | footprint_step ].
Qed.

(** [deploy_model] writes no local file. *)
Lemma touches_only_deploy_model P url model k fd ss :
  touches_only no_path (deploy_model P url model k fd ss).
Proof. unfold deploy_model. repeat footprint_step. Qed.

(** ** A failure while archiving *)

Section FailedArchiving.

Variable P : Platform.






End FailedArchiving.

(** ** Runs that stop early *)

Section EarlyStops.

Variable P : Platform.

Lemma deploy_tf_model_upload_raises model run_id fs config weights e :
  let arch := archive_bytes P (loaded_model model config weights) run_id fs in
  md_model model = Some config → md_weights model = Some weights →
  paths_free run_id fs →
  quiet P (staging_trace model config weights run_id) →
  fails P (ES3Put (archive_name run_id) arch) = Some e →
  deploy_tf_model P model run_id fs
  = (Raise e,
     <[archive_name run_id := File arch]> (remove_tree (model_dir run_id) fs),
     staging_trace model config weights run_id
     ++ [ES3Put (archive_name run_id) arch]).
Proof.
  intros arch Hm Hw Hfree Hq Hput. subst arch.
  unfold staging_trace in Hq. split_quiet Hq.
  assert (quiet P (tf_model_to_tar_trace run_id)) as Htq
    by (repeat constructor; assumption).
  pose proof (tf_model_to_tar_run P (loaded_model model config weights)
                run_id fs Htq Hfree) as Htar.
  unfold loaded_model in Htar, Hput.
  unfold deploy_tf_model. run_unfold. rewrite Hm, Hw.
  cbv beta iota zeta.
  repeat (first [use_quiet | rewrite Htar | rewrite lookup_insert_eq
                | rewrite Hput];
          cbv beta iota zeta).
  reflexivity.
Qed.

Lemma deploy_model_rejects_url url model k fd ss fs e :
  TARGET_S3_OUTPUT_PATH P url = Raise e →
  quiet P [ETime; EPrint (PText (endpoint_banner (knn_endpoint_name (now_ms P))))] →
  deploy_model P url model k fd ss fs
  = (Raise e, fs,
     [ETime; EPrint (PText (endpoint_banner (knn_endpoint_name (now_ms P))))]).
Proof.
  intros Hout Hq. split_quiet Hq. unfold deploy_model. run_unfold.
  repeat (first [use_quiet | rewrite Hout]; cbv beta iota zeta).
  reflexivity.
Qed.

Lemma output_path_raises_value_error url e :
  TARGET_S3_OUTPUT_PATH P url = Raise e → e = ValueError.
Proof.
  unfold TARGET_S3_OUTPUT_PATH, Url.urlparse, Url.urlsplit.
  cbv [mbind mret Res_bind Res_ret].
  repeat case_match; congruence.
Qed.

End EarlyStops.

(** ** A path without scheme through [urlparse] *)

Section PlainPaths.

Implicit Types (s r : string) (c : ascii) (comps segs : list string).

Lemma plain_char_component c : plain_char c = true → component_char c = true.
Proof. unfold plain_char. by intros [[-> _]%andb_true_iff _]%andb_true_iff. Qed.

Lemma plain_component_spec s :
  plain_component s = true → s ≠ "" ∧ Url.all_chars plain_char s = true.
Proof.
  unfold plain_component. intros [Hne ->]%andb_true_iff. split; [|done].
  by apply negb_true_iff, bool_decide_eq_false in Hne.
Qed.

(** A text that does not start with a slash has no network location. *)
Lemma no_double_slash {A} c r (f : string → A) (d : A) :
  c ≠ "/"%char →
  match String c r with
  | String "/" (String "/" rest) => f rest
  | _ => d
  end = d.
Proof. intros Hc. by destruct c as [[] [] [] [] [] [] [] []]. Qed.

Lemma urlparse_plain hc c r :
  Url.c0_control_or_space c = false → c ≠ "/"%char →
  Url.all_chars path_char (String c r) = true →
  Py.contains ":" (String c r) = false →
  Py.contains ";" (String c r) = false →
  Url.urlparse hc (String c r)
  = Ok {| Url.scheme := ""; Url.netloc := ""; Url.path := String c r;
          Url.params := ""; Url.query := ""; Url.fragment := "" |}.
Proof.
  intros Hc0 Hsl Hpath Hcolon Hsemi.
  assert (Url.lstrip_c0 (String c r) = String c r) as Hstrip
    by (simpl; by rewrite Hc0).
  unfold Url.urlparse, Url.urlsplit.
  rewrite Hstrip, remove_unsafe_id by done.
  unfold Url.split_scheme. rewrite Hcolon.
  rewrite (no_double_slash c r Url.split_netloc) by done.
  rewrite (all_chars_contains path_char "#" _ eq_refl Hpath).
  rewrite (all_chars_contains path_char "?" _ eq_refl Hpath).
  change (Url.netloc_ok hc "") with true. cbv [mbind Res_bind].
  rewrite Hsemi, andb_false_r. reflexivity.
Qed.

(** [os.path.join] from the empty path is the join of the components. *)
Lemma path_join_from_empty segs :
  Forall (fun s => s ≠ "" ∧ Py.contains "/" s = false) segs →
  Py.path_join "" segs = Py.join "/" segs.
Proof.
  intros [|x l [Hne Hx] Hl]; [done|].
  change (Py.path_join "" (x :: l)) with (Py.path_join (Py.path_join_step "" x) l).
  assert (Py.path_join_step "" x = x) as ->.
  { unfold Py.path_join_step. by rewrite (startswith_contains _ _ Hx). }
  rewrite path_join_components by auto using endswith_contains.
  by destruct l.
Qed.

Lemma join_head c s comps : ∃ r, Py.join "/" (String c s :: comps) = String c r.
Proof. destruct comps; [by eexists|]. rewrite join_cons, str_app_cons. by eexists. Qed.

End PlainPaths.

(** ** A url that ends with a slash *)

Section TrailingSlash.

Implicit Types (s : string) (c : ascii) (comps segs : list string).

Lemma rstrip_app_sep c s : Py.rstrip c (s +:+ String c "") = Py.rstrip c s.
Proof.
  induction s as [|d s IH].
  - simpl. by rewrite decide_True.
  - rewrite str_app_cons. simpl. by rewrite IH.
Qed.

Lemma join_app_empty comps :
  comps ≠ [] → Py.join "/" (comps ++ [""]) = Py.join "/" comps +:+ "/".
Proof.
  induction comps as [|x comps IH]; [done|]. intros _.
  destruct comps as [|y comps]; [done|].
  change ((x :: y :: comps) ++ [""]) with (x :: (y :: comps) ++ [""]).
  change ((y :: comps) ++ [""]) with (y :: comps ++ [""]) at 1.
  rewrite !join_cons.
  change (y :: comps ++ [""]) with ((y :: comps) ++ [""]).
  rewrite IH by done.
  change (String "/" ?a) with ("/" +:+ a). by rewrite !str_app_assoc.
Qed.

Lemma output_path_trailing_slash P bucket segs last :
  bucket_name bucket = true →
  Forall (fun s => component s = true) segs →
  component last = true →
  TARGET_S3_OUTPUT_PATH P (s3_path bucket (segs ++ [last]) +:+ "/")
  = Ok ("s3://" +:+ Py.join "/" (bucket :: segs)).
Proof.
  intros Hbucket Hsegs Hlast.
  pose proof (output_path_of_s3_path P bucket segs last Hbucket Hsegs Hlast)
    as Hplain.
  destruct (bucket_name_spec _ Hbucket) as [_ Hb].
  assert (Forall (fun s => Url.all_chars component_char s = true)
            (segs ++ [last])) as Hall.
  { apply Forall_app. split.
    - eapply Forall_impl; [exact Hsegs|]. by intros s [_ ?]%component_spec.
    - repeat constructor. by apply component_spec in Hlast as [_ ?]. }
  assert (s3_path bucket (segs ++ [last]) +:+ "/"
          = s3_path bucket ((segs ++ [last]) ++ [""])) as ->.
  { unfold s3_path. rewrite join_app_empty by (by destruct segs).
    by rewrite !str_app_assoc. }
  unfold TARGET_S3_OUTPUT_PATH in *.
  rewrite urlparse_s3_path in Hplain by done.
  rewrite urlparse_s3_path by (by try apply Forall_app; try split; repeat constructor).
  simpl in *. rewrite <-Hplain. do 3 f_equal.
  rewrite join_app_empty by (by destruct segs).
  unfold Py.strip.
  change (Py.lstrip "/" (String "/" ?a)) with (Py.lstrip "/" a).
  assert (∀ a, a ≠ "" → Py.startswith "/" a = false →
               Py.lstrip "/" (a +:+ "/") = Py.lstrip "/" a +:+ "/") as Hl.
  { intros [|d a] Hne Hst; [done|]. rewrite str_app_cons. simpl in *.
    apply bool_decide_eq_false in Hst. by rewrite !decide_False. }
  assert (Forall (fun s => s ≠ "" ∧ Py.contains "/" s = false)
            (segs ++ [last])) as Hgood.
  { apply Forall_app. split.
    - eapply Forall_impl; [exact Hsegs|]. simpl.
      intros s [? ?]%component_spec. split; [done|]. by apply component_no_slash.
    - repeat constructor; apply component_spec in Hlast as [? ?]; [done|].
      by apply component_no_slash. }
  rewrite Hl.
  - by rewrite rstrip_app_sep.
  - destruct (segs ++ [last]) as [|x l] eqn:Hx; [by destruct segs|].
    inversion Hgood as [|?? [Hne _] _]; subst.
    destruct l; [done|]. rewrite join_cons. by destruct x.
  - by apply startswith_join.
Qed.

End TrailingSlash.

(** ** The arguments of the calls *)

(** The calls of any run of [tf_model_to_tar] are among its four. *)
Lemma tf_model_to_tar_calls P m run_id fs r fs' t ev :
  tf_model_to_tar P m run_id fs = (r, fs', t) → ev ∈ t →
  op_name ev ∈ tf_model_to_tar_ops.
Proof.
  intros H Hev. pose proof (straight_tf_model_to_tar P m run_id fs) as Hs.
  rewrite H in Hs.
  assert ((op_name <$> t) `prefix_of` tf_model_to_tar_ops) as [rest Hpre].
  { destruct r; [by destruct Hs as [-> _]|by destruct Hs]. }
  rewrite Hpre. apply elem_of_app. left. by apply list_elem_of_fmap_2.
Qed.

Lemma deploy_tf_model_deploy_event P model run_id fs i ev :
  trace (deploy_tf_model P model run_id) fs !! i = Some ev →
  op_name ev = "model.deploy" →
  ∃ config weights,
    let arch := archive_bytes P (loaded_model model config weights) run_id fs in
    let url := s3_url P (archive_name run_id) arch in
    md_model model = Some config ∧ md_weights model = Some weights
    ∧ trace (deploy_tf_model P model run_id) fs !! 7%nat
    = Some (ES3Put (archive_name run_id) arch)
    ∧ ev = ETfDeploy {| sm_model_data := url;
                        sm_image_uri := environ P !! "DOCKER_IMAGE";
                        sm_role := environ P !! "IAM_SAGEMAKER_ROLE" |}
             1 (environ P !! "SAGEMAKER_INSTANCE")
             (tf_endpoint_name (now_ms P)).
Proof.
  intros H Hev. unfold trace in *.
  destruct (deploy_tf_model P model run_id fs) as [[r fs'] t] eqn:Hrun.
  simpl in *.
  unfold deploy_tf_model in Hrun. run_unfold_in Hrun.
  repeat run_step_in Hrun.
  all: injection Hrun as <- <- <-.
  all: try match goal with
       | Htar : tf_model_to_tar _ _ _ _ = (Ok _, _, _) |- _ =>
           apply tf_model_to_tar_inv in Htar as (-> & -> & ->)
       end.
  all: repeat match goal with
       | Hl : context [<[_:=_]> _ !! _] |- _ => rewrite lookup_insert_eq in Hl
       end.
  all: simplify_eq.
  all: cbn [app tf_model_to_tar_trace] in H |- *.
  all: repeat (destruct i as [|i];
               [cbn [lookup list_lookup] in H; injection H as <-;
                first [discriminate Hev
                      | eexists _, _;
                        split_and!; reflexivity]|]).
  all: try done.
  exfalso.
  match type of H with
  | (_ :: _ :: ?t) !! _ = _ => change (t !! i = Some ev) in H
  end.
  apply list_elem_of_lookup_2 in H.
  match goal with
  | Htar : tf_model_to_tar _ _ _ _ = _ |- _ =>
      pose proof (tf_model_to_tar_calls _ _ _ _ _ _ _ _ Htar H) as Hin
  end.
  rewrite Hev in Hin. revert Hin. apply (bool_decide_unpack _). by vm_compute.
Qed.

(** The [fit] call of a run of [deploy_model]. *)
Lemma deploy_model_fit_event P url model k fd ss fs out i ev :
  TARGET_S3_OUTPUT_PATH P url = Ok out →
  trace (deploy_model P url model k fd ss) fs !! i = Some ev →
  op_name ev = "fit" →
  ev = EFit {| est_image_uri := knn_image;
               est_role := environ P !! "IAM_SAGEMAKER_ROLE";
               est_instance_count := 1; est_instance_type := "ml.m5.large";
               est_output_path := out;
               est_hyperparameters := knn_hyperparams k fd ss;
               est_training := None |}
         [("train", {| ti_s3_data := url;
                       ti_content_type := "text/csv; label_size=1" |})].
Proof.
  intros Hout H Hev. unfold trace, deploy_model in H. run_unfold_in H.
  rewrite Hout in H. cbv beta iota zeta in H.
  repeat run_step_in H.
  all: cbn [snd app] in H.
  all: repeat (destruct i as [|i];
               [cbn [lookup list_lookup] in H; injection H as <-;
                first [discriminate Hev | reflexivity]|]).
  all: done.
Qed.

(** The test inference of a run of [deploy_tf_model]. *)
Lemma deploy_tf_model_predict_event P model run_id fs i ev :
  trace (deploy_tf_model P model run_id) fs !! i = Some ev →
  op_name ev = "predictor.predict" →
  ev = ETfPredict (tf_endpoint_name (now_ms P)) tf_test_input.
Proof.
  intros H Hev. unfold trace in *.
  destruct (deploy_tf_model P model run_id fs) as [[r fs'] t] eqn:Hrun.
  simpl in *.
  unfold deploy_tf_model in Hrun. run_unfold_in Hrun.
  repeat run_step_in Hrun.
  all: injection Hrun as <- <- <-.
  all: try match goal with
       | Htar : tf_model_to_tar _ _ _ _ = (Ok _, _, _) |- _ =>
           apply tf_model_to_tar_inv in Htar as (-> & -> & ->)
       end.
  all: cbn [app tf_model_to_tar_trace] in H |- *.
  all: repeat (destruct i as [|i];
               [cbn [lookup list_lookup] in H; injection H as <-;
                first [discriminate Hev | reflexivity]|]).
  all: try done.
  exfalso.
  match type of H with
  | (_ :: _ :: ?t) !! _ = _ => change (t !! i = Some ev) in H
  end.
  apply list_elem_of_lookup_2 in H.
  match goal with
  | Htar : tf_model_to_tar _ _ _ _ = _ |- _ =>
      pose proof (tf_model_to_tar_calls _ _ _ _ _ _ _ _ Htar H) as Hin
  end.
  rewrite Hev in Hin. revert Hin. apply (bool_decide_unpack _). by vm_compute.
Qed.


(** ** The claims *)



(** C2, as stated, fails.  [deploy_tf_model] compares the answer of the
    test inference with nothing: two platforms that differ in the
    predictions of the endpoint alone lead to the same calls and the same
    returned pair. *)
Lemma tf_smoke_test_compares_nothing :
  tf_predictions (tf_response Sample.tf_platform "intent-1000-endpoint" tf_test_input)
  ≠ tf_predictions (tf_response Sample.other_tf_platform "intent-1000-endpoint"
                      tf_test_input)
  ∧ result (deploy_tf_model Sample.tf_platform Sample.model_dict 7) ∅
    = Ok ("s3://models/model-7.tar.gz", "intent-1000-endpoint")
  ∧ result (deploy_tf_model Sample.other_tf_platform Sample.model_dict 7) ∅
    = Ok ("s3://models/model-7.tar.gz", "intent-1000-endpoint")
  ∧ trace (deploy_tf_model Sample.tf_platform Sample.model_dict 7) ∅
    = trace (deploy_tf_model Sample.other_tf_platform Sample.model_dict 7) ∅.
Proof. split_and!; [discriminate|by vm_compute..]. Qed.

(** C2, amended.  A run of [deploy_tf_model] that returns has serialized
    the model, uploaded the archive, asked for the endpoint and issued
    exactly one test inference, in this order; the predictions it got are
    not empty, and it returns the url of the uploaded archive and the
    endpoint name.  The predictions are checked for nothing else: when no
    call raises and the local paths are free, the run returns exactly when
    the predictions are not empty. *)
Theorem tf_smoke_test (P : Platform) (model : ModelDict) (run_id : Z)
    (fs : gmap string Node) :
  let run := deploy_tf_model P model run_id in
  (∀ model_s3_path endpoint_name,
     result run fs = Ok (model_s3_path, endpoint_name) →
     ∃ config weights,
       let arch := archive_bytes P (loaded_model model config weights) run_id fs in
       md_model model = Some config ∧ md_weights model = Some weights
       ∧ trace run fs = deploy_tf_model_trace P model config weights arch run_id
       ∧ length (filter (fun ev => op_name ev = "predictor.predict") (trace run fs))
         = 1%nat
       ∧ tf_predictions (tf_response P endpoint_name tf_test_input) ≠ []
       ∧ model_s3_path = s3_url P (archive_name run_id) arch
       ∧ endpoint_name = tf_endpoint_name (now_ms P))
  ∧ (∀ config weights,
       let arch := archive_bytes P (loaded_model model config weights) run_id fs in
       md_model model = Some config → md_weights model = Some weights →
       paths_free run_id fs →
       quiet P (deploy_tf_model_trace P model config weights arch run_id) →
       (result run fs
        = Ok (s3_url P (archive_name run_id) arch, tf_endpoint_name (now_ms P))
        ↔ tf_predictions (tf_response P (tf_endpoint_name (now_ms P)) tf_test_input)
          ≠ [])).
Proof.
  intros run. subst run. split.
  - intros path name H. apply run_result_inv in H as (fs' & t & H).
    unfold trace. rewrite H. simpl.
    apply deploy_tf_model_inv in H
      as (config & weights & Hm & Hw & -> & -> & Hp & _ & ->).
    by exists config, weights.
  - intros config weights arch Hm Hw Hfree Hq. unfold result.
    rewrite (deploy_tf_model_run P model run_id fs config weights) by done.
    simpl. by destruct (tf_predictions _).
Qed.

Lemma tf_smoke_test_witness :
  result (deploy_tf_model Sample.tf_platform Sample.model_dict 7) ∅
  = Ok ("s3://models/model-7.tar.gz", "intent-1000-endpoint")
  ∧ length (filter (fun ev => op_name ev = "predictor.predict")
              (trace (deploy_tf_model Sample.tf_platform Sample.model_dict 7) ∅))
    = 1%nat
  ∧ tf_predictions
      (tf_response Sample.tf_platform "intent-1000-endpoint" tf_test_input) ≠ [].
Proof.
  assert (result (deploy_tf_model Sample.tf_platform Sample.model_dict 7) ∅
          = Ok ("s3://models/model-7.tar.gz", "intent-1000-endpoint")) as H
    by (vm_compute; reflexivity).
  destruct (proj1 (tf_smoke_test Sample.tf_platform Sample.model_dict 7 ∅) _ _ H)
    as (config & weights & _ & _ & _ & Hone & Hne & _).
  split; [exact H|split; [exact Hone|exact Hne]].
Defined.

(** C3. The endpoint name is the timestamp in milliseconds between a fixed
    prefix and suffix, ['intent-<ms>-endpoint'] in [deploy_tf_model] and
    ['rec-knn-<ms>-endpoint'] in [deploy_model]; two runs of the same
    function return the same name exactly when they read the same
    millisecond. *)
Theorem endpoint_name_from_timestamp :
  (∀ P model run_id fs path name,
     result (deploy_tf_model P model run_id) fs = Ok (path, name) →
     name = "intent-" +:+ Py.str_int (now_ms P) +:+ "-endpoint")
  ∧ (∀ P vectors_s3_path kv k fd ss fs name,
       result (deploy_model P vectors_s3_path kv k fd ss) fs = Ok name →
       name = "rec-knn-" +:+ Py.str_int (now_ms P) +:+ "-endpoint")
  ∧ (∀ P1 P2 model1 model2 run1 run2 fs1 fs2 path1 path2 n1 n2,
       result (deploy_tf_model P1 model1 run1) fs1 = Ok (path1, n1) →
       result (deploy_tf_model P2 model2 run2) fs2 = Ok (path2, n2) →
       (n1 = n2 ↔ now_ms P1 = now_ms P2))
  ∧ (∀ P1 P2 url1 url2 kv1 kv2 k1 k2 fd1 fd2 ss1 ss2 fs1 fs2 n1 n2,
       result (deploy_model P1 url1 kv1 k1 fd1 ss1) fs1 = Ok n1 →
       result (deploy_model P2 url2 kv2 k2 fd2 ss2) fs2 = Ok n2 →
       (n1 = n2 ↔ now_ms P1 = now_ms P2)).
Proof.
  assert (∀ P model run_id fs path name,
     result (deploy_tf_model P model run_id) fs = Ok (path, name) →
     name = tf_endpoint_name (now_ms P)) as Htf.
  { intros P model run_id fs path name H.
    apply run_result_inv in H as (? & ? & H).
    by apply deploy_tf_model_inv in H as (? & ? & _ & _ & _ & -> & _). }
  assert (∀ P url kv k fd ss fs name,
     result (deploy_model P url kv k fd ss) fs = Ok name →
     name = knn_endpoint_name (now_ms P)) as Hknn.
  { intros P url kv k fd ss fs name H.
    apply run_result_inv in H as (? & ? & H).
    by apply deploy_model_inv in H as (? & ? & ? & ? & ? & _ & _ & _ & _ & _ & -> & _). }
  assert (∀ a b, tf_endpoint_name a = tf_endpoint_name b ↔ a = b) as Htf_inj.
  { intros a b. split; [|by intros ->]. unfold tf_endpoint_name. intros H.
    apply (inj (String.app "intent-")) in H.
    by apply str_app_inj_r, str_int_inj in H. }
  assert (∀ a b, knn_endpoint_name a = knn_endpoint_name b ↔ a = b) as Hknn_inj.
  { intros a b. split; [|by intros ->]. unfold knn_endpoint_name. intros H.
    apply (inj (String.app "rec-knn-")) in H.
    by apply str_app_inj_r, str_int_inj in H. }
  split_and!.
  - apply Htf.
  - apply Hknn.
  - intros ???????????? H1 H2.
    apply Htf in H1 as ->. apply Htf in H2 as ->. apply Htf_inj.
  - intros ???????????????? H1 H2.
    apply Hknn in H1 as ->. apply Hknn in H2 as ->. apply Hknn_inj.
Qed.

Lemma endpoint_name_from_timestamp_witness :
  result (deploy_tf_model Sample.tf_platform Sample.model_dict 7) ∅
  = Ok ("s3://models/model-7.tar.gz", "intent-1000-endpoint")
  ∧ result (deploy_tf_model (Sample.platform 1001 [[Sample.q 1]] [])
              Sample.model_dict 7) ∅
    = Ok ("s3://models/model-7.tar.gz", "intent-1001-endpoint")
  ∧ ("intent-1000-endpoint" = "intent-1001-endpoint" ↔ 1000 = 1001).
Proof.
  assert (result (deploy_tf_model Sample.tf_platform Sample.model_dict 7) ∅
          = Ok ("s3://models/model-7.tar.gz", "intent-1000-endpoint")) as H1
    by (vm_compute; reflexivity).
  assert (result (deploy_tf_model (Sample.platform 1001 [[Sample.q 1]] [])
            Sample.model_dict 7) ∅
          = Ok ("s3://models/model-7.tar.gz", "intent-1001-endpoint")) as H2
    by (vm_compute; reflexivity).
  split; [exact H1|split; [exact H2|]].
  exact (proj1 (proj2 (proj2 endpoint_name_from_timestamp))
           _ _ _ _ _ _ _ _ _ _ _ _ H1 H2).
Defined.

(** C4. For every run identifier [tf_model_to_tar] saves the model under
    ['intent-model-<run_id>/1'] and the name it returns is
    ['model-<run_id>.tar.gz']: it does return it when no call raises and
    the local paths are free, and two runs with the same identifier return
    the same name. *)
Theorem archive_naming (P : Platform) (m : TfModel) (run_id : Z)
    (fs : gmap string Node) :
  list.head (trace (tf_model_to_tar P m run_id) fs)
  = Some (ESave ("intent-model-" +:+ Py.str_int run_id +:+ "/1"))
  ∧ (∀ name, result (tf_model_to_tar P m run_id) fs = Ok name →
       name = "model-" +:+ Py.str_int run_id +:+ ".tar.gz")
  ∧ (quiet P (tf_model_to_tar_trace run_id) → paths_free run_id fs →
       result (tf_model_to_tar P m run_id) fs
       = Ok ("model-" +:+ Py.str_int run_id +:+ ".tar.gz"))
  ∧ (∀ P' m' fs' name name',
       result (tf_model_to_tar P m run_id) fs = Ok name →
       result (tf_model_to_tar P' m' run_id) fs' = Ok name' →
       name = name').
Proof.
  assert (∀ Q n g name, result (tf_model_to_tar Q n run_id) g = Ok name →
            name = archive_name run_id) as Hname.
  { intros Q n g name H. apply run_result_inv in H as (? & ? & H).
    by apply tf_model_to_tar_inv in H as (-> & _). }
  split_and!.
  - unfold trace, tf_model_to_tar, keras_save. run_unfold.
    destruct (fails P _); [done|]. cbv beta iota zeta.
    by destruct (makedirs _ _); repeat case_match.
  - apply Hname.
  - intros Hq Hfree. unfold result.
    by rewrite tf_model_to_tar_run.
  - intros P' m' fs' name name' H1 H2.
    apply Hname in H1 as ->. by apply Hname in H2 as ->.
Qed.

Lemma archive_naming_witness :
  quiet Sample.tf_platform (tf_model_to_tar_trace 7)
  ∧ paths_free 7 ∅
  ∧ result (tf_model_to_tar Sample.tf_platform
              (loaded_model Sample.model_dict "{}" []) 7) ∅
    = Ok "model-7.tar.gz".
Proof.
  assert (quiet Sample.tf_platform (tf_model_to_tar_trace 7)) as Hq
    by (by repeat constructor).
  assert (paths_free 7 ∅) as Hfree by (by vm_compute).
  split; [exact Hq|split; [exact Hfree|]].
  exact (proj1 (proj2 (proj2
           (archive_naming Sample.tf_platform
              (loaded_model Sample.model_dict "{}" []) 7 ∅))) Hq Hfree).
Defined.

(** C5. Neither function handles an exception.  An exception raised inside
    a call is the result of the run as it is, and the call that raised is
    the last call of the run: nothing is tried again and nothing is done to
    recover; upload, fit, deploy and predict are made at most once.  A
    failed assertion ends the run with [AssertionError]. *)
Theorem exceptions_propagate (P : Platform) :
  (∀ model run_id, uncaught P tf_sdk_ops (deploy_tf_model P model run_id))
  ∧ (∀ vectors_s3_path kv k fd ss,
       uncaught P knn_sdk_ops (deploy_model P vectors_s3_path kv k fd ss))
  ∧ (∀ model run_id fs config weights,
       let arch := archive_bytes P (loaded_model model config weights) run_id fs in
       md_model model = Some config → md_weights model = Some weights →
       paths_free run_id fs →
       quiet P (deploy_tf_model_trace P model config weights arch run_id) →
       tf_predictions (tf_response P (tf_endpoint_name (now_ms P)) tf_test_input) = [] →
       result (deploy_tf_model P model run_id) fs = Raise AssertionError)
  ∧ (∀ vectors_s3_path kv k fd ss fs out test_key test_vector preds pred,
       TARGET_S3_OUTPUT_PATH P vectors_s3_path = Ok out →
       index_to_key kv !! 0%nat = Some test_key →
       get_vector kv !! test_key = Some test_vector →
       indices_of kv (similar_by_key kv test_key (k - 1)) = Ok preds →
       knn_predictions
         (knn_response P (knn_endpoint_name (now_ms P)) test_vector knn_predict_args)
         !! 0%nat = Some pred →
       quiet P (deploy_model_trace P vectors_s3_path k fd ss out test_key
                  test_vector preds pred) →
       np_array_equal preds (Py.reversed_tail (labels pred)) = false →
       result (deploy_model P vectors_s3_path kv k fd ss) fs = Raise AssertionError).
Proof.
  split_and!.
  - intros model run_id.
    eapply straight_uncaught; [apply straight_deploy_tf_model|].
    apply (bool_decide_unpack _). by vm_compute.
  - intros url kv k fd ss.
    eapply straight_uncaught; [apply straight_deploy_model|].
    apply (bool_decide_unpack _). by vm_compute.
  - intros model run_id fs config weights arch Hm Hw Hfree Hq Hnil.
    unfold result. rewrite (deploy_tf_model_run P model run_id fs config weights) by done.
    by rewrite Hnil.
  - intros url kv k fd ss fs out test_key test_vector preds pred
      Hout Hkey Hvec Hpreds Hpred Hq Hne.
    unfold result. rewrite (deploy_model_run P url kv k fd ss fs out test_key
                              test_vector preds pred) by done.
    by rewrite Hne.
Qed.

Lemma exceptions_propagate_witness :
  (∃ ev, trace (deploy_tf_model Sample.failing_platform Sample.model_dict 7) ∅
           !! 16%nat = Some ev
         ∧ fails Sample.failing_platform ev
           = Some (LibraryError "ResourceLimitExceeded"))
  ∧ result (deploy_tf_model Sample.failing_platform Sample.model_dict 7) ∅
    = Raise (LibraryError "ResourceLimitExceeded")
  ∧ length (trace (deploy_tf_model Sample.failing_platform Sample.model_dict 7) ∅)
    = 17%nat.
Proof.
  assert (trace (deploy_tf_model Sample.failing_platform Sample.model_dict 7) ∅
            !! 16%nat
          = Some (ETfDeploy {| sm_model_data := "s3://models/model-7.tar.gz";
                               sm_image_uri := None; sm_role := None |}
                    1 None "intent-1000-endpoint")) as Hev
    by (vm_compute; reflexivity).
  split; [eexists; split; [exact Hev|reflexivity]|].
  exact (proj1 (proj1 (exceptions_propagate Sample.failing_platform)
                  Sample.model_dict 7 ∅)
           16%nat _ _ Hev eq_refl).
Defined.

(** C6. When [deploy_tf_model] returns, the local file system is the one
    it started from without the directory ['intent-model-<run_id>'] and
    without the archive ['model-<run_id>.tar.gz']: neither exists, every
    other path is as before.  The directory is gone when [tf_model_to_tar]
    returns, its removal follows the archiving, and the archive is removed
    once its bytes are uploaded. *)
Theorem artifact_is_ephemeral (P : Platform) (model : ModelDict) (run_id : Z)
    (fs : gmap string Node) (returned : string * string) :
  result (deploy_tf_model P model run_id) fs = Ok returned →
  let dir := "intent-model-" +:+ Py.str_int run_id in
  let archive := "model-" +:+ Py.str_int run_id +:+ ".tar.gz" in
  let fs' := final_fs (deploy_tf_model P model run_id) fs in
  fs' !! archive = None
  ∧ (∀ p, is_under dir p = true → fs' !! p = None)
  ∧ (∀ p, p ≠ archive → is_under dir p = false → fs' !! p = fs !! p)
  ∧ (∀ m name,
       result (tf_model_to_tar P m run_id) fs = Ok name →
       ∀ p, is_under dir p = true →
            final_fs (tf_model_to_tar P m run_id) fs !! p = None)
  ∧ (∃ t1 arch t2,
       trace (deploy_tf_model P model run_id) fs
       = t1 ++ [ETarAdd (dir +:+ "/1"); ERmtree dir; EOpenRead archive;
                ES3Put archive arch;
                EPrint (PText ("Model saved at: " +:+ s3_url P archive arch));
                ERemove archive] ++ t2).
Proof.
  intros H dir archive fs'. subst fs'.
  change dir with (model_dir run_id). change archive with (archive_name run_id).
  clear dir archive. destruct returned as [path name].
  apply run_result_inv in H as (fs1 & t & H). unfold final_fs, trace. rewrite H.
  apply deploy_tf_model_inv in H as (config & weights & _ & _ & _ & _ & _ & -> & ->).
  simpl. split_and!.
  - apply lookup_delete_eq.
  - intros p Hp. rewrite lookup_delete_ne by (by apply archive_ne_under).
    by apply remove_tree_lookup_under.
  - intros p Hp Hout. rewrite lookup_delete_ne by done.
    by apply remove_tree_lookup_outside.
  - intros m nm Hm p Hp.
    apply run_result_inv in Hm as (fs2 & t2 & Hm). rewrite Hm.
    apply tf_model_to_tar_inv in Hm as (_ & -> & _). simpl.
    rewrite lookup_insert_ne by (by apply archive_ne_under).
    by apply remove_tree_lookup_under.
  - eexists [_; _; _; _], _, _. reflexivity.
Qed.

Lemma artifact_is_ephemeral_witness :
  result (deploy_tf_model Sample.tf_platform Sample.model_dict 7) Sample.used_fs
  = Ok ("s3://models/model-7.tar.gz", "intent-1000-endpoint")
  ∧ final_fs (deploy_tf_model Sample.tf_platform Sample.model_dict 7)
      Sample.used_fs !! "model-7.tar.gz" = None
  ∧ final_fs (deploy_tf_model Sample.tf_platform Sample.model_dict 7)
      Sample.used_fs !! "intent-model-7/old" = None
  ∧ final_fs (deploy_tf_model Sample.tf_platform Sample.model_dict 7)
      Sample.used_fs !! "notes.txt" = Some (File "keep").
Proof.
  assert (result (deploy_tf_model Sample.tf_platform Sample.model_dict 7)
            Sample.used_fs
          = Ok ("s3://models/model-7.tar.gz", "intent-1000-endpoint")) as H
    by (vm_compute; reflexivity).
  destruct (artifact_is_ephemeral Sample.tf_platform Sample.model_dict 7
              Sample.used_fs _ H)
    as (Harch & Hdir & Hother & _).
  split; [exact H|split; [exact Harch|split]].
  - apply Hdir. vm_compute. reflexivity.
  - rewrite Hother; [vm_compute; reflexivity|discriminate|vm_compute; reflexivity].
Defined.



(** C8, as stated, fails.  An empty path component is lost by
    [os.path.join]: for ['s3://bucket/a//b/c'] the output path given to
    the estimator is ['s3://bucket/a/b'], not the url without its last
    component, ['s3://bucket/a//b'].  And [urlparse] ends the path at a
    ['?']: for ['s3://bucket/a?b/c/d'] the output path is ['s3://bucket'],
    not ['s3://bucket/a?b/c']. *)
Lemma output_path_not_the_parent :
  ("s3://bucket/a//b/c" = s3_path "bucket" (["a"; ""; "b"] ++ ["c"])
   ∧ TARGET_S3_OUTPUT_PATH Sample.knn_platform "s3://bucket/a//b/c"
     = Ok "s3://bucket/a/b"
   ∧ trace (deploy_model Sample.knn_platform "s3://bucket/a//b/c" Sample.vectors
              10 48 65536) ∅ !! 4%nat
     = Some (EEstimator knn_image (Some "sagemaker-role") 1 "ml.m5.large"
               "s3://bucket/a/b")
   ∧ "s3://bucket/a/b" ≠ "s3://" +:+ Py.join "/" ("bucket" :: ["a"; ""; "b"]))
  ∧ ("s3://bucket/a?b/c/d" = s3_path "bucket" (["a?b"; "c"] ++ ["d"])
     ∧ TARGET_S3_OUTPUT_PATH Sample.knn_platform "s3://bucket/a?b/c/d"
       = Ok "s3://bucket"
     ∧ "s3://bucket" ≠ "s3://" +:+ Py.join "/" ("bucket" :: ["a?b"; "c"])).
Proof. split_and!; first [by vm_compute | discriminate]. Qed.

(** C8, amended.  For a bucket name and path components that are not
    empty and hold no ['/'], ['?'], ['#'], tab, carriage return or line
    feed (the bucket name moreover in ASCII and without brackets), the
    output path that [deploy_model] computes from
    ['s3://<bucket>/<seg1>/.../<segN>/<last>'] and passes to the estimator
    is ['s3://<bucket>/<seg1>/.../<segN>'], and ['s3://<bucket>'] when the
    path has one component. *)
Theorem training_output_path (P : Platform) (bucket : string)
    (segs : list string) (last : string) :
  bucket_name bucket = true →
  Forall (fun s => component s = true) segs →
  component last = true →
  let url := "s3://" +:+ bucket +:+ "/" +:+ Py.join "/" (segs ++ [last]) in
  let output_path := "s3://" +:+ Py.join "/" (bucket :: segs) in
  TARGET_S3_OUTPUT_PATH P url = Ok output_path
  ∧ (segs = [] → output_path = "s3://" +:+ bucket)
  ∧ ∀ model k fd ss fs,
      (∀ i ev, trace (deploy_model P url model k fd ss) fs !! i = Some ev →
               op_name ev = "Estimator" →
               ev = EEstimator knn_image (environ P !! "IAM_SAGEMAKER_ROLE") 1
                      "ml.m5.large" output_path)
      ∧ (quiet P [ETime;
                  EPrint (PText (endpoint_banner (knn_endpoint_name (now_ms P))));
                  EGetenv "IAM_SAGEMAKER_ROLE"; ESession] →
         trace (deploy_model P url model k fd ss) fs !! 4%nat
         = Some (EEstimator knn_image (environ P !! "IAM_SAGEMAKER_ROLE") 1
                   "ml.m5.large" output_path)).
Proof.
  intros Hb Hsegs Hlast url output_path.
  assert (TARGET_S3_OUTPUT_PATH P url = Ok output_path) as Hout
    by (by apply output_path_of_s3_path).
  split_and!; [done|by intros ->|].
  intros model k fd ss fs. split.
  - intros i ev. by apply deploy_model_estimator.
  - by apply deploy_model_reaches_estimator.
Qed.

Lemma training_output_path_witness :
  bucket_name "my-bucket" = true
  ∧ Forall (fun s => component s = true) ["data"; "run-7"]
  ∧ component "vectors.csv" = true
  ∧ TARGET_S3_OUTPUT_PATH Sample.knn_platform "s3://my-bucket/data/run-7/vectors.csv"
    = Ok "s3://my-bucket/data/run-7".
Proof.
  assert (bucket_name "my-bucket" = true) as Hb by reflexivity.
  assert (Forall (fun s => component s = true) ["data"; "run-7"]) as Hs
    by (by repeat constructor).
  assert (component "vectors.csv" = true) as Hl by reflexivity.
  split; [exact Hb|split; [exact Hs|split; [exact Hl|]]].
  exact (proj1 (training_output_path Sample.knn_platform "my-bucket"
                  ["data"; "run-7"] "vectors.csv" Hb Hs Hl)).
Defined.

(** C9, as stated, fails.  With [k = 1] the local ranking has [k - 1 = 0]
    entries, and an endpoint that answers with no label at all, fewer than
    [k], passes the assertion: [[1:]] of an empty array drops nothing. *)
Lemma assertion_passes_without_labels :
  length (similar_by_key Sample.vectors "shoe" (1 - 1)) = Z.to_nat (1 - 1)
  ∧ knn_predictions
      (knn_response Sample.mute_platform "rec-knn-1000-endpoint"
         [Sample.q 1; Sample.q 0] knn_predict_args)
    = [{| predicted_label := Sample.q 0; distances := []; labels := [] |}]
  ∧ Z.of_nat (length (@nil Qc)) ≠ 1
  ∧ result (deploy_model Sample.mute_platform Sample.vectors_url Sample.vectors
              1 48 65536) ∅
    = Ok "rec-knn-1000-endpoint".
Proof. split_and!; [done|done|done|by vm_compute]. Qed.

(** C9, amended.  The assertion of [deploy_model] can succeed only when the
    ['labels'] list, once its last element is dropped, is as long as the
    local ranking: it has one entry more than the ranking, or both are
    empty.  So when the ranking has [k - 1] entries and [k] is at least 2,
    the endpoint must have answered exactly [k] labels. *)
Theorem assertion_fixes_label_count (P : Platform) (vectors_s3_path : string)
    (model : KeyedVectors) (k feature_dim sample_size : Z)
    (fs : gmap string Node) (name test_key : string) (test_vector : list Qc)
    (pred : KnnPrediction) :
  result (deploy_model P vectors_s3_path model k feature_dim sample_size) fs
  = Ok name →
  index_to_key model !! 0%nat = Some test_key →
  get_vector model !! test_key = Some test_vector →
  knn_predictions (knn_response P name test_vector knn_predict_args) !! 0%nat
  = Some pred →
  let ranking := similar_by_key model test_key (k - 1) in
  (length (labels pred) = S (length ranking)
   ∨ (labels pred = [] ∧ ranking = []))
  ∧ (Z.of_nat (length ranking) = k - 1 → 2 ≤ k →
     Z.of_nat (length (labels pred)) = k).
Proof.
  intros H Hkey Hvec Hpred ranking. subst ranking.
  apply run_result_inv in H as (fs' & t & H).
  apply deploy_model_inv in H
    as (out & key' & vec' & preds & pred' & _ & Hkey' & Hvec' & Hpreds & Hpred'
        & _ & Heq & _).
  rewrite Hkey in Hkey'. injection Hkey' as <-.
  rewrite Hvec in Hvec'. injection Hvec' as <-.
  rewrite Hpred in Hpred'. injection Hpred' as <-.
  apply np_array_equal_spec in Heq. apply indices_of_length in Hpreds.
  apply (f_equal length) in Heq.
  rewrite length_fmap, Hpreds in Heq. unfold Py.reversed_tail in Heq.
  assert (length (labels pred)
          = length (rev (labels pred))) as Hrev by (by rewrite length_rev).
  destruct (rev (labels pred)) as [|x l] eqn:Hl; simpl in Heq, Hrev.
  - apply nil_length_inv in Hrev.
    destruct (similar_by_key model test_key (k - 1)); [|done].
    split; [by right|]. simpl. lia.
  - split; [left; lia|]. lia.
Qed.

Lemma assertion_fixes_label_count_witness :
  result (deploy_model Sample.knn_platform Sample.vectors_url Sample.vectors
            3 48 65536) ∅
  = Ok "rec-knn-1000-endpoint"
  ∧ Z.of_nat (length (similar_by_key Sample.vectors "shoe" (3 - 1))) = 3 - 1
  ∧ Z.of_nat (length (labels Sample.knn_prediction)) = 3.
Proof.
  assert (result (deploy_model Sample.knn_platform Sample.vectors_url
                    Sample.vectors 3 48 65536) ∅
          = Ok "rec-knn-1000-endpoint") as H
    by (vm_compute; reflexivity).
  split; [exact H|split; [reflexivity|]].
  refine (proj2 (assertion_fixes_label_count Sample.knn_platform
            Sample.vectors_url Sample.vectors 3 48 65536 ∅
            "rec-knn-1000-endpoint" "shoe" [Sample.q 1; Sample.q 0]
            Sample.knn_prediction H _ _ _) _ _);
    first [reflexivity | lia].
Defined.

(** C10. An endpoint name of [deploy_tf_model] starts with ['intent-'] and
    one of [deploy_model] with ['rec-knn-']: whatever the two timestamps
    are, the names differ, and so do the names that any two runs of the two
    functions return. *)
Theorem endpoint_names_disjoint :
  (∀ a b, tf_endpoint_name a ≠ knn_endpoint_name b)
  ∧ ∀ P1 model run_id fs1 path n1 P2 vectors_s3_path kv k fd ss fs2 n2,
      result (deploy_tf_model P1 model run_id) fs1 = Ok (path, n1) →
      result (deploy_model P2 vectors_s3_path kv k fd ss) fs2 = Ok n2 →
      n1 ≠ n2.
Proof.
  assert (∀ a b, tf_endpoint_name a ≠ knn_endpoint_name b) as Hne
    by (intros a b; unfold tf_endpoint_name, knn_endpoint_name; by intros [=]).
  split; [done|].
  intros P1 model run_id fs1 path n1 P2 url kv k fd ss fs2 n2 H1 H2.
  apply run_result_inv in H1 as (? & ? & H1).
  apply run_result_inv in H2 as (? & ? & H2).
  apply deploy_tf_model_inv in H1 as (? & ? & _ & _ & _ & -> & _).
  apply deploy_model_inv in H2 as (? & ? & ? & ? & ? & _ & _ & _ & _ & _ & -> & _).
  apply Hne.
Qed.

Lemma endpoint_names_disjoint_witness :
  result (deploy_tf_model Sample.tf_platform Sample.model_dict 7) ∅
  = Ok ("s3://models/model-7.tar.gz", "intent-1000-endpoint")
  ∧ result (deploy_model Sample.knn_platform Sample.vectors_url
              Sample.vectors 3 48 65536) ∅
    = Ok "rec-knn-1000-endpoint"
  ∧ "intent-1000-endpoint" ≠ "rec-knn-1000-endpoint".
Proof.
  assert (result (deploy_tf_model Sample.tf_platform Sample.model_dict 7) ∅
          = Ok ("s3://models/model-7.tar.gz", "intent-1000-endpoint")) as H1
    by (vm_compute; reflexivity).
  assert (result (deploy_model Sample.knn_platform Sample.vectors_url
                    Sample.vectors 3 48 65536) ∅
          = Ok "rec-knn-1000-endpoint") as H2
    by (vm_compute; reflexivity).
  split; [exact H1|split; [exact H2|]].
  exact (proj2 endpoint_names_disjoint _ _ _ _ _ _ _ _ _ _ _ _ _ _ H1 H2).
Defined.


(** ** Further properties of the three functions *)

(** X1. [deploy_tf_model] reads ['model'] and ['weights'] with
    [model[...]].  Without ['model'] the run raises [KeyError('model')]
    before any call is made.  With ['model'] but without ['weights'] it
    raises [KeyError('weights')] once [model_from_json] has returned, and
    that is the only call of the run.  The local file system is untouched
    in both runs. *)
Theorem missing_dict_key (P : Platform) (model : ModelDict) (run_id : Z)
    (fs : gmap string Node) :
  (md_model model = None →
   deploy_tf_model P model run_id fs = (Raise (KeyError "model"), fs, []))
  ∧ (∀ config,
       md_model model = Some config → md_weights model = None →
       fails P (EModelFromJson config (md_custom_objects model)) = None →
       deploy_tf_model P model run_id fs
       = (Raise (KeyError "weights"), fs,
          [EModelFromJson config (md_custom_objects model)])).
Proof.
  split.
  - intros Hm. unfold deploy_tf_model. run_unfold. by rewrite Hm.
  - intros config Hm Hw Hq. unfold deploy_tf_model. run_unfold.
    by rewrite Hm, Hq, Hw.
Qed.

Lemma missing_dict_key_witness :
  deploy_tf_model Sample.tf_platform Cases.no_model 7 ∅
  = (Raise (KeyError "model"), ∅, [])
  ∧ deploy_tf_model Sample.tf_platform Cases.no_weights 7 ∅
    = (Raise (KeyError "weights"), ∅, [EModelFromJson "{}" None]).
Proof.
  split.
  - exact (proj1 (missing_dict_key Sample.tf_platform Cases.no_model 7 ∅) eq_refl).
  - exact (proj2 (missing_dict_key Sample.tf_platform Cases.no_weights 7 ∅)
             "{}" eq_refl eq_refl eq_refl).
Defined.

(** X2. When [s3.put] raises in [deploy_tf_model], the exception ends the
    run and the archive ['model-<run_id>.tar.gz'] stays on the local disk
    with the bytes that were to be uploaded: [os.remove] comes after the
    upload and is not reached.  The model directory is gone already. *)
Theorem upload_failure_leaves_archive (P : Platform) (model : ModelDict)
    (run_id : Z) (fs : gmap string Node) (config : string)
    (weights : list (list Qc)) (e : Exn) :
  let archive := "model-" +:+ Py.str_int run_id +:+ ".tar.gz" in
  let dir := "intent-model-" +:+ Py.str_int run_id in
  let arch := archive_bytes P (loaded_model model config weights) run_id fs in
  let run := deploy_tf_model P model run_id in
  md_model model = Some config → md_weights model = Some weights →
  paths_free run_id fs →
  quiet P (staging_trace model config weights run_id) →
  fails P (ES3Put archive arch) = Some e →
  result run fs = Raise e
  ∧ final_fs run fs !! archive = Some (File arch)
  ∧ (∀ p, is_under dir p = true → final_fs run fs !! p = None)
  ∧ trace run fs = staging_trace model config weights run_id ++ [ES3Put archive arch].
Proof.
  intros archive dir arch run Hm Hw Hfree Hq Hput. subst run arch.
  change archive with (archive_name run_id) in *.
  change dir with (model_dir run_id). clear archive dir.
  unfold result, final_fs, trace.
  rewrite (deploy_tf_model_upload_raises P model run_id fs config weights e)
    by done.
  simpl. split_and!; [done|apply lookup_insert_eq| |done].
  intros p Hp. rewrite lookup_insert_ne by (by apply archive_ne_under).
  by apply remove_tree_lookup_under.
Qed.

Lemma upload_failure_leaves_archive_witness :
  result (deploy_tf_model Cases.no_upload Sample.model_dict 7) ∅
  = Raise (LibraryError "AccessDenied")
  ∧ final_fs (deploy_tf_model Cases.no_upload Sample.model_dict 7) ∅
    !! "model-7.tar.gz" = Some (File "archive")
  ∧ final_fs (deploy_tf_model Cases.no_upload Sample.model_dict 7) ∅
    !! "intent-model-7" = None.
Proof.
  assert (paths_free 7 ∅) as Hfree by (by vm_compute).
  assert (quiet Cases.no_upload
            (staging_trace Sample.model_dict "{}" [[Sample.q 1; Sample.q 2]] 7))
    as Hq by (by repeat constructor).
  destruct (upload_failure_leaves_archive Cases.no_upload Sample.model_dict 7 ∅
              "{}" [[Sample.q 1; Sample.q 2]] (LibraryError "AccessDenied")
              eq_refl eq_refl Hfree Hq eq_refl)
    as (Hres & Harch & Hdir & _).
  split; [exact Hres|split; [exact Harch|]].
  apply Hdir. vm_compute. reflexivity.
Defined.



(** X4. Whatever their outcome, [tf_model_to_tar] and [deploy_tf_model]
    change no local path other than the archive ['model-<run_id>.tar.gz'],
    the directory ['intent-model-<run_id>'] and what lies below it: every
    other path is after the run as it was before, also when the run
    raises. *)
Theorem local_footprint (P : Platform) (run_id : Z) (fs : gmap string Node)
    (p : string) :
  p ≠ "model-" +:+ Py.str_int run_id +:+ ".tar.gz" →
  is_under ("intent-model-" +:+ Py.str_int run_id) p = false →
  (∀ m, final_fs (tf_model_to_tar P m run_id) fs !! p = fs !! p)
  ∧ (∀ model, final_fs (deploy_tf_model P model run_id) fs !! p = fs !! p).
Proof.
  intros Ha Hd.
  assert (run_paths run_id p = false) as Hp.
  { unfold run_paths. apply orb_false_iff. split; [|done].
    by apply bool_decide_eq_false. }
  split.
  - intros m. by apply touches_only_tf_model_to_tar.
  - intros model. by apply touches_only_deploy_tf_model.
Qed.

Lemma local_footprint_witness :
  result (deploy_tf_model Cases.no_upload Sample.model_dict 7) Sample.used_fs
  = Raise (LibraryError "AccessDenied")
  ∧ final_fs (deploy_tf_model Cases.no_upload Sample.model_dict 7) Sample.used_fs
    !! "notes.txt" = Some (File "keep").
Proof.
  split; [vm_compute; reflexivity|].
  assert ("notes.txt" ≠ "model-" +:+ Py.str_int 7 +:+ ".tar.gz") as Ha
    by discriminate.
  assert (is_under ("intent-model-" +:+ Py.str_int 7) "notes.txt" = false) as Hd
    by (vm_compute; reflexivity).
  rewrite (proj2 (local_footprint Cases.no_upload 7 Sample.used_fs "notes.txt"
                    Ha Hd) Sample.model_dict).
  vm_compute. reflexivity.
Defined.

(** X5. [deploy_model] writes no local file: it holds no file operation
    of its own, so that after every run, returning or raising, the local
    file system is the one the run started from (the calls into SageMaker
    and gensim being taken to leave local files alone). *)
Theorem deploy_model_writes_no_file (P : Platform) (vectors_s3_path : string)
    (model : KeyedVectors) (k feature_dim sample_size : Z)
    (fs : gmap string Node) :
  final_fs (deploy_model P vectors_s3_path model k feature_dim sample_size) fs = fs.
Proof.
  apply map_eq. intros p. by apply touches_only_deploy_model.
Qed.

(** X6. The only exception of lines 121 to 124 is the [ValueError] of
    [urlparse].  When it is raised, [deploy_model] ends with it having read
    the clock and printed the endpoint name only: no estimator is created,
    nothing is trained and nothing is deployed. *)
Theorem rejected_url_stops_before_sagemaker (P : Platform)
    (vectors_s3_path : string) (model : KeyedVectors)
    (k feature_dim sample_size : Z) (fs : gmap string Node) (e : Exn) :
  TARGET_S3_OUTPUT_PATH P vectors_s3_path = Raise e →
  e = ValueError
  ∧ (quiet P [ETime;
              EPrint (PText (endpoint_banner (knn_endpoint_name (now_ms P))))] →
     deploy_model P vectors_s3_path model k feature_dim sample_size fs
     = (Raise ValueError, fs,
        [ETime; EPrint (PText (endpoint_banner (knn_endpoint_name (now_ms P))))])).
Proof.
  intros Hout. pose proof (output_path_raises_value_error P _ _ Hout) as ->.
  split; [done|]. intros Hq. by apply deploy_model_rejects_url.
Qed.

Lemma rejected_url_stops_before_sagemaker_witness :
  TARGET_S3_OUTPUT_PATH Sample.knn_platform Cases.bracket_url = Raise ValueError
  ∧ result (deploy_model Sample.knn_platform Cases.bracket_url Sample.vectors
              3 48 65536) ∅
    = Raise ValueError
  ∧ length (trace (deploy_model Sample.knn_platform Cases.bracket_url
                     Sample.vectors 3 48 65536) ∅) = 2%nat.
Proof.
  assert (TARGET_S3_OUTPUT_PATH Sample.knn_platform Cases.bracket_url
          = Raise ValueError) as H by (vm_compute; reflexivity).
  assert (quiet Sample.knn_platform
            [ETime;
             EPrint (PText (endpoint_banner
                              (knn_endpoint_name (now_ms Sample.knn_platform))))])
    as Hq by (by repeat constructor).
  split; [exact H|].
  unfold result, trace.
  rewrite (proj2 (rejected_url_stops_before_sagemaker Sample.knn_platform
                    Cases.bracket_url Sample.vectors 3 48 65536 ∅ _ H) Hq).
  split; reflexivity.
Defined.

(** X7. Lines 121 to 124 do not check that the path is an S3 url.  A path
    without scheme and host, ['<c1>/.../<cn>/<file>'] with components that
    are not empty and hold no slash, colon, semicolon, ['?'], ['#'], space
    or control character, has an empty [netloc]; [os.path.join] then starts
    from the empty bucket and the output path is ['s3://<c1>/.../<cn>']:
    the first directory stands where the bucket should. *)
Theorem plain_path_becomes_bucket (P : Platform) (segs : list string)
    (last : string) :
  Forall (fun s => plain_component s = true) segs →
  plain_component last = true →
  TARGET_S3_OUTPUT_PATH P (Py.join "/" (segs ++ [last]))
  = Ok ("s3://" +:+ Py.join "/" segs).
Proof.
  intros Hsegs Hlast.
  assert (Forall (fun s => s ≠ "" ∧ Url.all_chars plain_char s = true)
            (segs ++ [last])) as Hall.
  { apply Forall_app. split; [|by repeat constructor; apply plain_component_spec].
    eapply Forall_impl; [exact Hsegs|]. apply plain_component_spec. }
  assert (Forall (fun s => s ≠ "" ∧ Py.contains "/" s = false)
            (segs ++ [last])) as Hgood.
  { eapply Forall_impl; [exact Hall|]. simpl. intros s [? Hs].
    split; [done|]. apply component_no_slash.
    eapply all_chars_impl; [|exact Hs]. apply plain_char_component. }
  assert (∀ p : ascii → bool, p "/"%char = true →
            (∀ c, plain_char c = true → p c = true) →
            Url.all_chars p (Py.join "/" (segs ++ [last])) = true) as Hchars.
  { intros p Hp Himpl. apply all_chars_join; [done|].
    eapply Forall_impl; [exact Hall|]. simpl. intros s [_ Hs].
    eapply all_chars_impl; [|exact Hs]. done. }
  assert (∃ c r, Py.join "/" (segs ++ [last]) = String c r
                 ∧ plain_char c = true) as (c & r & Hurl & Hc).
  { destruct (segs ++ [last]) as [|x l] eqn:Hx; [by destruct segs|].
    inversion Hall as [|?? [Hne Hxc] _]; subst. destruct x as [|c x]; [done|].
    destruct (join_head c x l) as [r Hr]. exists c, r. split; [done|].
    rewrite all_chars_cons in Hxc. by apply andb_true_iff in Hxc as [? _]. }
  unfold TARGET_S3_OUTPUT_PATH.
  pose proof (startswith_join _ Hgood) as Hstart.
  pose proof (endswith_join _ Hgood) as Hend.
  rewrite Hurl in *. rewrite urlparse_plain.
  - simpl. f_equal. f_equal. unfold Py.strip.
    rewrite lstrip_id, rstrip_id by done. rewrite <-Hurl, split_join.
    + unfold Py.drop_last. rewrite removelast_last.
      apply path_join_from_empty. by apply Forall_app in Hgood as [? _].
    + by destruct segs.
    + eapply Forall_impl; [exact Hgood|]. by intros s [_ ?].
  - unfold plain_char in Hc. apply andb_true_iff in Hc as [_ Hc].
    by apply negb_true_iff in Hc.
  - by apply component_char_no_slash, plain_char_component.
  - apply (Hchars path_char); [done|].
    intros d Hd. by apply component_char_path, plain_char_component.
  - apply (all_chars_contains (fun d => negb (bool_decide (d = ":"%char)))); [done|].
    apply Hchars; [done|]. unfold plain_char. intros d Hd.
    apply andb_true_iff in Hd as [Hd _]. apply andb_true_iff in Hd as [_ Hd].
    apply negb_true_iff, bool_decide_eq_false in Hd.
    apply negb_true_iff, bool_decide_eq_false. tauto.
  - apply (all_chars_contains (fun d => negb (bool_decide (d = ";"%char)))); [done|].
    apply Hchars; [done|]. unfold plain_char. intros d Hd.
    apply andb_true_iff in Hd as [Hd _]. apply andb_true_iff in Hd as [_ Hd].
    apply negb_true_iff, bool_decide_eq_false in Hd.
    apply negb_true_iff, bool_decide_eq_false. tauto.
Qed.

Lemma plain_path_becomes_bucket_witness :
  TARGET_S3_OUTPUT_PATH Sample.knn_platform "data/run/vectors.csv"
  = Ok "s3://data/run".
Proof.
  assert (Forall (fun s => plain_component s = true) ["data"; "run"]) as Hsegs
    by (by repeat constructor).
  exact (plain_path_becomes_bucket Sample.knn_platform ["data"; "run"]
           "vectors.csv" Hsegs eq_refl).
Defined.

(** X8. With vectors that hold no key, [model.index_to_key[0]] raises
    [IndexError].  The lookup comes after the training and the deployment:
    the run that ends with this exception has fitted the estimator and
    deployed the endpoint, and has neither queried nor removed it. *)
Theorem empty_vocabulary_after_deployment (P : Platform)
    (vectors_s3_path : string) (model : KeyedVectors)
    (k feature_dim sample_size : Z) (fs : gmap string Node) (out : string) :
  TARGET_S3_OUTPUT_PATH P vectors_s3_path = Ok out →
  quiet P (knn_setup_trace P vectors_s3_path k feature_dim sample_size out) →
  index_to_key model = [] →
  deploy_model P vectors_s3_path model k feature_dim sample_size fs
  = (Raise IndexError, fs,
     knn_setup_trace P vectors_s3_path k feature_dim sample_size out).
Proof.
  intros Hout Hq Hkeys. unfold knn_setup_trace in Hq. split_quiet Hq.
  unfold deploy_model. run_unfold.
  repeat (first [use_quiet | rewrite Hout | rewrite Hkeys];
          cbv beta iota zeta).
  reflexivity.
Qed.

Lemma empty_vocabulary_after_deployment_witness :
  result (deploy_model Sample.knn_platform Sample.vectors_url Cases.empty_vectors
            3 48 65536) ∅
  = Raise IndexError
  ∧ op_name <$> trace (deploy_model Sample.knn_platform Sample.vectors_url
                         Cases.empty_vectors 3 48 65536) ∅
    = take 10 deploy_model_ops.
Proof.
  assert (TARGET_S3_OUTPUT_PATH Sample.knn_platform Sample.vectors_url
          = Ok "s3://bucket/data") as Hout by (vm_compute; reflexivity).
  assert (quiet Sample.knn_platform
            (knn_setup_trace Sample.knn_platform Sample.vectors_url 3 48 65536
               "s3://bucket/data")) as Hq by (by repeat constructor).
  unfold result, trace.
  rewrite (empty_vocabulary_after_deployment Sample.knn_platform
             Sample.vectors_url Cases.empty_vectors 3 48 65536 ∅
             "s3://bucket/data" Hout Hq eq_refl).
  split; reflexivity.
Defined.

(** X9. When the answer of the endpoint holds no prediction,
    [['predictions'][0]] raises [IndexError]: the run ends with it, not
    with [AssertionError], right after the test inference and before
    anything is printed or compared. *)
Theorem empty_predictions_index_error (P : Platform) (vectors_s3_path : string)
    (model : KeyedVectors) (k feature_dim sample_size : Z)
    (fs : gmap string Node) (out test_key : string) (test_vector : list Qc)
    (gensim_preds : list Z) :
  TARGET_S3_OUTPUT_PATH P vectors_s3_path = Ok out →
  index_to_key model !! 0%nat = Some test_key →
  get_vector model !! test_key = Some test_vector →
  indices_of model (similar_by_key model test_key (k - 1)) = Ok gensim_preds →
  knn_predictions
    (knn_response P (knn_endpoint_name (now_ms P)) test_vector knn_predict_args)
  = [] →
  quiet P (knn_setup_trace P vectors_s3_path k feature_dim sample_size out
           ++ knn_query_trace P k test_key test_vector) →
  deploy_model P vectors_s3_path model k feature_dim sample_size fs
  = (Raise IndexError, fs,
     knn_setup_trace P vectors_s3_path k feature_dim sample_size out
     ++ knn_query_trace P k test_key test_vector).
Proof.
  intros Hout Hkey Hvec Hpreds Hpred Hq.
  unfold knn_setup_trace, knn_query_trace in Hq. cbn [app] in Hq. split_quiet Hq.
  unfold knn_predict_args in Hpred. unfold deploy_model. run_unfold.
  repeat (first [use_quiet | rewrite Hout | rewrite Hkey | rewrite Hvec
                | rewrite Hpreds | rewrite Hpred];
          cbv beta iota zeta).
  reflexivity.
Qed.

Lemma empty_predictions_index_error_witness :
  result (deploy_model Cases.no_prediction Sample.vectors_url Sample.vectors
            3 48 65536) ∅
  = Raise IndexError
  ∧ length (trace (deploy_model Cases.no_prediction Sample.vectors_url
                     Sample.vectors 3 48 65536) ∅) = 12%nat.
Proof.
  assert (TARGET_S3_OUTPUT_PATH Cases.no_prediction Sample.vectors_url
          = Ok "s3://bucket/data") as Hout by (vm_compute; reflexivity).
  assert (quiet Cases.no_prediction
            (knn_setup_trace Cases.no_prediction Sample.vectors_url 3 48 65536
               "s3://bucket/data"
             ++ knn_query_trace Cases.no_prediction 3 "shoe"
                  [Sample.q 1; Sample.q 0])) as Hq by (by repeat constructor).
  unfold result, trace.
  rewrite (empty_predictions_index_error Cases.no_prediction Sample.vectors_url
             Sample.vectors 3 48 65536 ∅ "s3://bucket/data" "shoe"
             [Sample.q 1; Sample.q 0] [1; 2] Hout eq_refl eq_refl eq_refl
             eq_refl Hq).
  split; reflexivity.
Defined.



(** X11. Both endpoint names are made of lower case letters, digits and
    hyphens, whatever the timestamp is. *)
Theorem endpoint_name_alphabet (ms : Z) :
  Url.all_chars endpoint_char (tf_endpoint_name ms) = true
  ∧ Url.all_chars endpoint_char (knn_endpoint_name ms) = true.
Proof.
  assert (Url.all_chars endpoint_char (Py.str_int ms) = true) as Hms.
  { eapply all_chars_impl; [|apply str_int_decimal].
    unfold decimal_char, endpoint_char. intros c [->| ->]%orb_true_iff.
    - by rewrite orb_true_r.
    - by rewrite orb_true_r. }
  unfold tf_endpoint_name, knn_endpoint_name.
  by rewrite !all_chars_app, Hms.
Qed.

(** X12. A run of [deploy_tf_model] that returns leaves the local paths of
    its run id free, so that it can be run again with the same id; and a
    further run that returns, of any model on any platform, leaves the file
    system exactly as it found it. *)
Theorem rerun_after_return (P : Platform) (model : ModelDict) (run_id : Z)
    (fs : gmap string Node) (returned : string * string) :
  result (deploy_tf_model P model run_id) fs = Ok returned →
  let fs' := final_fs (deploy_tf_model P model run_id) fs in
  paths_free run_id fs'
  ∧ ∀ P' model' returned',
      result (deploy_tf_model P' model' run_id) fs' = Ok returned' →
      final_fs (deploy_tf_model P' model' run_id) fs' = fs'.
Proof.
  intros H fs'. destruct returned as [path name].
  apply run_result_inv in H as (fs1 & t & H).
  assert (fs' = fs1) as -> by (subst fs'; unfold final_fs; by rewrite H).
  apply deploy_tf_model_inv in H as (config & weights & _ & _ & _ & _ & _ & -> & _).
  assert (∀ p, is_under (model_dir run_id) p = true →
               delete (archive_name run_id) (remove_tree (model_dir run_id) fs) !! p
               = None) as Hunder.
  { intros p Hp. rewrite lookup_delete_ne by (by apply archive_ne_under).
    by apply remove_tree_lookup_under. }
  split.
  - unfold paths_free.
    rewrite !Hunder by auto using is_under_self, model_name_under.
    by rewrite lookup_delete_eq.
  - intros P' model' [path' name'] H'.
    apply run_result_inv in H' as (fs2 & t2 & H'). unfold final_fs. rewrite H'.
    apply deploy_tf_model_inv in H' as (? & ? & _ & _ & _ & _ & _ & -> & _).
    simpl. apply map_eq. intros p.
    destruct (decide (p = archive_name run_id)) as [->|Hne].
    { by rewrite !lookup_delete_eq. }
    rewrite (lookup_delete_ne _ (archive_name run_id) p) by done.
    destruct (is_under (model_dir run_id) p) eqn:Hp.
    + by rewrite remove_tree_lookup_under, Hunder.
    + by rewrite remove_tree_lookup_outside.
Qed.

Lemma rerun_after_return_witness :
  result (deploy_tf_model Sample.tf_platform Sample.model_dict 7) Sample.used_fs
  = Ok ("s3://models/model-7.tar.gz", "intent-1000-endpoint")
  ∧ paths_free 7
      (final_fs (deploy_tf_model Sample.tf_platform Sample.model_dict 7)
         Sample.used_fs).
Proof.
  assert (result (deploy_tf_model Sample.tf_platform Sample.model_dict 7)
            Sample.used_fs
          = Ok ("s3://models/model-7.tar.gz", "intent-1000-endpoint")) as H
    by (vm_compute; reflexivity).
  split; [exact H|].
  exact (proj1 (rerun_after_return Sample.tf_platform Sample.model_dict 7
                  Sample.used_fs _ H)).
Defined.

(** X13. What [fit] is called with.  In every run of [deploy_model] the
    training job is started on an estimator that carries the
    hyperparameters of the arguments, [k], [feature_dim] and [sample_size]
    beside the cosine metric and the classifier type, on one
    ['ml.m5.large'] instance with the fixed KNN image and the output path
    of lines 121 to 124; its only channel is ['train'], the csv data at
    [vectors_s3_path] with one label column.  With the defaults of the
    signature the hyperparameters are 10, 48 and 65536. *)
Theorem fit_receives_arguments (P : Platform) (vectors_s3_path : string)
    (model : KeyedVectors) (k feature_dim sample_size : Z)
    (fs : gmap string Node) (out : string) :
  TARGET_S3_OUTPUT_PATH P vectors_s3_path = Ok out →
  let job hyperparams :=
    EFit {| est_image_uri := "174872318107.dkr.ecr.us-west-2.amazonaws.com/knn:1";
            est_role := environ P !! "IAM_SAGEMAKER_ROLE";
            est_instance_count := 1; est_instance_type := "ml.m5.large";
            est_output_path := out;
            est_hyperparameters := hyperparams;
            est_training := None |}
      [("train", {| ti_s3_data := vectors_s3_path;
                    ti_content_type := "text/csv; label_size=1" |})] in
  (∀ i ev,
     trace (deploy_model P vectors_s3_path model k feature_dim sample_size) fs
       !! i = Some ev →
     op_name ev = "fit" →
     ev = job [("k", HInt k); ("index_metric", HStr "COSINE");
               ("feature_dim", HInt feature_dim);
               ("sample_size", HInt sample_size);
               ("predictor_type", HStr "classifier")])
  ∧ (∀ i ev,
       trace (deploy_model_defaults P vectors_s3_path model) fs !! i = Some ev →
       op_name ev = "fit" →
       ev = job [("k", HInt 10); ("index_metric", HStr "COSINE");
                 ("feature_dim", HInt 48); ("sample_size", HInt 65536);
                 ("predictor_type", HStr "classifier")]).
Proof.
  intros Hout job. subst job. split.
  - intros i ev H Hev.
    by apply (deploy_model_fit_event P vectors_s3_path model k feature_dim
                sample_size fs out i ev).
  - intros i ev H Hev. unfold deploy_model_defaults in H.
    by apply (deploy_model_fit_event P vectors_s3_path model 10 48 65536
                fs out i ev).
Qed.

Lemma fit_receives_arguments_witness :
  TARGET_S3_OUTPUT_PATH Sample.knn_platform Sample.vectors_url
  = Ok "s3://bucket/data"
  ∧ trace (deploy_model Sample.knn_platform Sample.vectors_url Sample.vectors
             3 48 65536) ∅ !! 7%nat
    = Some (EFit {| est_image_uri := "174872318107.dkr.ecr.us-west-2.amazonaws.com/knn:1";
                    est_role := Some "sagemaker-role";
                    est_instance_count := 1; est_instance_type := "ml.m5.large";
                    est_output_path := "s3://bucket/data";
                    est_hyperparameters :=
                      [("k", HInt 3); ("index_metric", HStr "COSINE");
                       ("feature_dim", HInt 48); ("sample_size", HInt 65536);
                       ("predictor_type", HStr "classifier")];
                    est_training := None |}
              [("train", {| ti_s3_data := Sample.vectors_url;
                            ti_content_type := "text/csv; label_size=1" |})]).
Proof.
  assert (TARGET_S3_OUTPUT_PATH Sample.knn_platform Sample.vectors_url
          = Ok "s3://bucket/data") as Hout by (vm_compute; reflexivity).
  split; [exact Hout|].
  destruct (trace (deploy_model Sample.knn_platform Sample.vectors_url
                     Sample.vectors 3 48 65536) ∅ !! 7%nat) as [ev|] eqn:H;
    [|vm_compute in H; discriminate H].
  assert (op_name ev = "fit") as Hev
    by (vm_compute in H; injection H as <-; reflexivity).
  f_equal.
  exact (proj1 (fit_receives_arguments Sample.knn_platform Sample.vectors_url
                  Sample.vectors 3 48 65536 ∅ "s3://bucket/data" Hout)
           7%nat ev H Hev).
Defined.

(** X14. What is deployed is what was uploaded.  In every run of
    [deploy_tf_model], a [model.deploy] call is made on the model whose
    [model_data] is the url that [s3.put] returned for the archive of the
    run, the bytes uploaded being the archive that [tf_model_to_tar] wrote;
    image, role and instance type are read from the environment, the
    instance count is 1, and the endpoint name is the one of the
    timestamp.  The test inference goes to that endpoint name with one row
    of twenty numbers, [[1, 2, 3, 4, 5]] and fifteen zeros. *)
Theorem deployed_model_is_the_upload (P : Platform) (model : ModelDict)
    (run_id : Z) (fs : gmap string Node) (i : nat) (ev : Event) :
  trace (deploy_tf_model P model run_id) fs !! i = Some ev →
  (op_name ev = "model.deploy" →
   ∃ config weights,
     let archive := "model-" +:+ Py.str_int run_id +:+ ".tar.gz" in
     let arch := archive_bytes P (loaded_model model config weights) run_id fs in
     md_model model = Some config ∧ md_weights model = Some weights
     ∧ trace (deploy_tf_model P model run_id) fs !! 7%nat
       = Some (ES3Put archive arch)
     ∧ ev = ETfDeploy {| sm_model_data := s3_url P archive arch;
                         sm_image_uri := environ P !! "DOCKER_IMAGE";
                         sm_role := environ P !! "IAM_SAGEMAKER_ROLE" |}
              1 (environ P !! "SAGEMAKER_INSTANCE")
              ("intent-" +:+ Py.str_int (now_ms P) +:+ "-endpoint"))
  ∧ (op_name ev = "predictor.predict" →
     ev = ETfPredict ("intent-" +:+ Py.str_int (now_ms P) +:+ "-endpoint")
            [[1; 2; 3; 4; 5; 0; 0; 0; 0; 0; 0; 0; 0; 0; 0; 0; 0; 0; 0; 0]]).
Proof.
  intros H. split; intros Hev.
  - by apply (deploy_tf_model_deploy_event P model run_id fs i).
  - by apply (deploy_tf_model_predict_event P model run_id fs i).
Qed.

Lemma deployed_model_is_the_upload_witness :
  trace (deploy_tf_model Sample.tf_platform Sample.model_dict 7) ∅ !! 17%nat
  = Some (ETfPredict "intent-1000-endpoint"
            [[1; 2; 3; 4; 5; 0; 0; 0; 0; 0; 0; 0; 0; 0; 0; 0; 0; 0; 0; 0]]).
Proof.
  destruct (trace (deploy_tf_model Sample.tf_platform Sample.model_dict 7) ∅
              !! 17%nat) as [ev|] eqn:H;
    [|vm_compute in H; discriminate H].
  assert (op_name ev = "predictor.predict") as Hev
    by (vm_compute in H; injection H as <-; reflexivity).
  f_equal.
  exact (proj2 (deployed_model_is_the_upload Sample.tf_platform
                  Sample.model_dict 7 ∅ 17%nat ev H) Hev).
Defined.

(** X15. A slash at the end of the path changes nothing: [strip('/')]
    removes it before the split, so that the last component is dropped
    whether or not a slash follows it.  For a path that names a directory,
    ['s3://<bucket>/<c1>/.../<cn>/<dir>/'], the output path is
    ['s3://<bucket>/<c1>/.../<cn>'], not the directory itself. *)
Theorem trailing_slash_ignored (P : Platform) (bucket : string)
    (segs : list string) (last : string) :
  bucket_name bucket = true →
  Forall (fun s => component s = true) segs →
  component last = true →
  TARGET_S3_OUTPUT_PATH P (s3_path bucket (segs ++ [last]) +:+ "/")
  = Ok ("s3://" +:+ Py.join "/" (bucket :: segs))
  ∧ TARGET_S3_OUTPUT_PATH P (s3_path bucket (segs ++ [last]) +:+ "/")
    = TARGET_S3_OUTPUT_PATH P (s3_path bucket (segs ++ [last])).
Proof.
  intros Hb Hsegs Hlast.
  rewrite output_path_trailing_slash, output_path_of_s3_path by done. done.
Qed.

Lemma trailing_slash_ignored_witness :
  TARGET_S3_OUTPUT_PATH Sample.knn_platform "s3://bucket/data/vectors/"
  = Ok "s3://bucket/data".
Proof.
  assert (Forall (fun s => component s = true) ["data"]) as Hsegs
    by (by repeat constructor).
  exact (proj1 (trailing_slash_ignored Sample.knn_platform "bucket" ["data"]
                  "vectors" eq_refl Hsegs eq_refl)).
Defined.

(** X16. The test query of [deploy_model].  In every run, a
    [predictor.predict] call sends the vector of the first key,
    [model[model.index_to_key[0]]], as csv to the endpoint named after the
    timestamp and asks for the verbose json answer; before it, gensim was
    asked for the [k - 1] nearest neighbours of that same key. *)
Theorem knn_test_query (P : Platform) (vectors_s3_path : string)
    (model : KeyedVectors) (k feature_dim sample_size : Z)
    (fs : gmap string Node) (i : nat) (ev : Event) :
  let run := deploy_model P vectors_s3_path model k feature_dim sample_size in
  trace run fs !! i = Some ev →
  op_name ev = "predictor.predict" →
  ∃ test_key test_vector,
    index_to_key model !! 0%nat = Some test_key
    ∧ get_vector model !! test_key = Some test_vector
    ∧ trace run fs !! 10%nat = Some (ESimilarByKey test_key (k - 1))
    ∧ ev = EKnnPredict ("rec-knn-" +:+ Py.str_int (now_ms P) +:+ "-endpoint")
             test_vector
             [("ContentType", "text/csv");
              ("Accept", "application/json; verbose=true")].
Proof.
  intros run H Hev. subst run. unfold trace in *.
  destruct (deploy_model P vectors_s3_path model k feature_dim sample_size fs) as [[r fs'] t] eqn:Hrun.
  simpl in *.
  unfold deploy_model in Hrun. run_unfold_in Hrun.
  repeat run_step_in Hrun.
  all: injection Hrun as <- <- <-.
  all: cbn [app] in H |- *.
  all: repeat (destruct i as [|i];
               [cbn [lookup list_lookup] in H; injection H as <-;
                first [discriminate Hev
                      | eexists _, _;
                        split_and!; first [reflexivity|eassumption]]|]).
  all: cbn [lookup list_lookup] in H; discriminate H.
Qed.

Lemma knn_test_query_witness :
  trace (deploy_model Sample.knn_platform Sample.vectors_url Sample.vectors
           3 48 65536) ∅ !! 11%nat
  = Some (EKnnPredict "rec-knn-1000-endpoint" [Sample.q 1; Sample.q 0]
            [("ContentType", "text/csv");
             ("Accept", "application/json; verbose=true")])
  ∧ trace (deploy_model Sample.knn_platform Sample.vectors_url Sample.vectors
             3 48 65536) ∅ !! 10%nat
    = Some (ESimilarByKey "shoe" (3 - 1)).
Proof.
  destruct (trace (deploy_model Sample.knn_platform Sample.vectors_url
                     Sample.vectors 3 48 65536) ∅ !! 11%nat) as [ev|] eqn:H;
    [|vm_compute in H; discriminate H].
  assert (op_name ev = "predictor.predict") as Hev
    by (vm_compute in H; injection H as <-; reflexivity).
  destruct (knn_test_query Sample.knn_platform Sample.vectors_url Sample.vectors
              3 48 65536 ∅ 11%nat ev H Hev)
    as (test_key & test_vector & Hkey & Hvec & Hsim & ->).
  injection Hkey as <-. injection Hvec as <-.
  split; [reflexivity|exact Hsim].
Defined.
